(** * JSwift / applepye: the embedded-interpreter bridge

    A shallow embedding of [applepye.c]: the three entry points
    [applepye_initialize], [applepye_finalize] and [applepye_execute],
    the allocation helper [_dup_str], and the Python wrapper program that
    [applepye_execute] hands to [PyRun_SimpleString].

    The C code is modelled by explicit state passing over a [host]
    record (allocator budget, lifecycle flags, lock flag, interpreter
    state).  The wrapper program is modelled line by line over the
    interpreter state [pystate]: the [__main__] dictionary, the two
    attributes [sys.stdout] / [sys.stderr], the store of [io.StringIO]
    objects and the text that reached the real process streams.

    The semantics of the user's script is not part of this repository: it
    is the embedded interpreter's.  It enters the development as a record
    [Interp]: what the calls of [eval], [print] and [exec] in the wrapper
    do to the interpreter state, how the interpreter renders a trace, and
    the C-API calls that may fail.  General theorems hold for every such
    record; [MiniPy] is a small executable instance (a fragment of Python)
    on which concrete runs are evaluated.

    Model boundary.  The values a script can bind are those of [value]:
    there are no objects with methods of the script's own making, and the
    modules [sys], [io] and [traceback] are as shipped, but for the two
    attributes [sys.stdout] and [sys.stderr].  [applepye_execute] is a
    call on a live runtime entered with no exception pending on the
    thread; the error indicator, and the crash of a call that finds it
    set, are in [applepye_execute_thread].  [applepye_finalize] ends in a
    [process], which may have been aborted. *)

From Stdlib Require Import ZArith NArith List Ascii String Lia Bool.
From stdpp Require Import base option strings gmap pretty.

Local Open Scope string_scope.
Local Open Scope Z_scope.

(** ** Interpreter data *)

(** The real streams of the process. *)
Inductive file_id := Fd_stdout | Fd_stderr.

(** Exception classes.  [is_Exception] tells the classes deriving from
    [Exception] (those matched by [except Exception]) from the ones that
    derive from [BaseException] only. *)
Inductive exc_class :=
| SyntaxError | NameError | TypeError | ZeroDivisionError | AttributeError
| OtherException (name : string)
| KeyboardInterrupt | SystemExit | GeneratorExit.

Definition is_Exception (c : exc_class) : bool :=
  match c with
  | KeyboardInterrupt | SystemExit | GeneratorExit => false
  | _ => true
  end.

Definition class_name (c : exc_class) : string :=
  match c with
  | SyntaxError => "SyntaxError"
  | NameError => "NameError"
  | TypeError => "TypeError"
  | ZeroDivisionError => "ZeroDivisionError"
  | AttributeError => "AttributeError"
  | OtherException n => n
  | KeyboardInterrupt => "KeyboardInterrupt"
  | SystemExit => "SystemExit"
  | GeneratorExit => "GeneratorExit"
  end.

(** A raised exception, as far as the bridge looks at it: its class, its
    message, the frame lines of its traceback (outermost first), what is
    displayed before its own trace (the traces of the exceptions it was
    raised from or while handling, with their separators; empty when there
    is none), and whether it was raised with a [from] clause, which keeps
    the exception being handled out of the display.  How these are
    rendered is the interpreter's business ([py_trace] below). *)
Record exception := Exc {
  exc_cls : exc_class;
  exc_msg : string;
  exc_frames : string;
  exc_chain : string;
  exc_suppress_context : bool
}.

(** A fault raised on the spot: no frame yet, no chain. *)
Definition Fault (c : exc_class) (msg : string) : exception :=
  Exc c msg "" "" false.

(** Python values, as far as the wrapper handles them. *)
Inductive value :=
| VNone
| VInt (z : Z)
| VStr (s : string)
| VModule (name : string)
| VFile (fd : file_id)
| VStringIO (ix : nat)
| VFunction (name : string)
| VBuiltin (name : string)
| VClass (c : exc_class).

#[global] Instance file_id_eq_dec : EqDecision file_id.
Proof. solve_decision. Defined.
#[global] Instance exc_class_eq_dec : EqDecision exc_class.
Proof. solve_decision. Defined.
#[global] Instance value_eq_dec : EqDecision value.
Proof. solve_decision. Defined.

(** The interpreter state. *)
Record pystate := mkPy {
  globals : gmap string value;      (* the dictionary of __main__ *)
  sys_stdout : value;               (* sys.stdout *)
  sys_stderr : value;               (* sys.stderr *)
  stringios : list string;          (* contents of the io.StringIO objects *)
  real_stdout : string;             (* text written to the process stdout *)
  real_stderr : string              (* text written to the process stderr *)
}.

Definition set_globals (g : gmap string value) (st : pystate) : pystate :=
  mkPy g (sys_stdout st) (sys_stderr st) (stringios st)
       (real_stdout st) (real_stderr st).
Definition set_sys_stdout (v : value) (st : pystate) : pystate :=
  mkPy (globals st) v (sys_stderr st) (stringios st)
       (real_stdout st) (real_stderr st).
Definition set_sys_stderr (v : value) (st : pystate) : pystate :=
  mkPy (globals st) (sys_stdout st) v (stringios st)
       (real_stdout st) (real_stderr st).
Definition set_stringios (l : list string) (st : pystate) : pystate :=
  mkPy (globals st) (sys_stdout st) (sys_stderr st) l
       (real_stdout st) (real_stderr st).

Definition bind_global (x : string) (v : value) (st : pystate) : pystate :=
  set_globals (<[x := v]> (globals st)) st.
Definition del_global (x : string) (st : pystate) : pystate :=
  set_globals (delete x (globals st)) st.

(** What running a piece of Python does: it returns, raises, or never
    comes back. *)
Inductive outcome (A : Type) :=
| Normal (a : A) (st : pystate)
| Raised (e : exception) (st : pystate)
| Diverges.
Arguments Normal {A} a st.
Arguments Raised {A} e st.
Arguments Diverges {A}.

Definition bind_outcome {A B} (o : outcome A) (k : A -> pystate -> outcome B)
  : outcome B :=
  match o with
  | Normal a st => k a st
  | Raised e st => Raised e st
  | Diverges => Diverges
  end.

Notation "'let*' ( x , st ) ':=' o 'in' k" :=
  (bind_outcome o (fun x st => k))
  (at level 10, x name, st name, o at level 100, k at level 200, only parsing).

(** ** Streams and printing *)

(** [stream.write(text)] on whatever object sits in a stream slot. *)
Definition stream_write (target : value) (text : string) (st : pystate)
  : outcome unit :=
  match target with
  | VFile Fd_stdout =>
      Normal tt (mkPy (globals st) (sys_stdout st) (sys_stderr st)
                      (stringios st) (real_stdout st +:+ text) (real_stderr st))
  | VFile Fd_stderr =>
      Normal tt (mkPy (globals st) (sys_stdout st) (sys_stderr st)
                      (stringios st) (real_stdout st) (real_stderr st +:+ text))
  | VStringIO n =>
      match stringios st !! n with
      | Some old => Normal tt (set_stringios (<[n := old +:+ text]> (stringios st)) st)
      | None => Raised (Fault AttributeError "write") st
      end
  | _ => Raised (Fault AttributeError "write") st
  end.

(** The textual representation [str(v)].  It is exact for integers and
    strings; for the other values, whose real representation carries an
    address or a path, it is a stand-in. *)
Definition str_of_value (v : value) : string :=
  match v with
  | VNone => "None"
  | VInt z => pretty z
  | VStr s => s
  | VModule n => "<module '" +:+ n +:+ "'>"
  | VFile Fd_stdout => "<_io.TextIOWrapper name='<stdout>'>"
  | VFile Fd_stderr => "<_io.TextIOWrapper name='<stderr>'>"
  | VStringIO n => "<_io.StringIO object " +:+ pretty n +:+ ">"
  | VFunction n => "<function " +:+ n +:+ ">"
  | VBuiltin n => "<built-in function " +:+ n +:+ ">"
  | VClass c => "<class '" +:+ class_name c +:+ "'>"
  end.

Definition newline : string := String (ascii_of_nat 10) "".

(** [print(v)]: writes to the object bound to [sys.stdout] at the time of
    the call; a [sys.stdout] of [None] makes [print] do nothing. *)
Definition py_print (v : value) (st : pystate) : outcome unit :=
  match sys_stdout st with
  | VNone => Normal tt st
  | target => stream_write target (str_of_value v +:+ newline) st
  end.

(** One frame line of a traceback: the code of the wrapper and of the
    script is compiled from a string. *)
Definition dquote : string := String (ascii_of_nat 34) "".

Definition frame_line (line : nat) (fn : string) : string :=
  "  File " +:+ dquote +:+ "<string>" +:+ dquote +:+ ", line " +:+ pretty line
  +:+ ", in " +:+ fn +:+ newline.

(** A fault that leaves the code at [line] of function [fn] has that frame
    put in front of its traceback. *)
Definition add_frame (line : nat) (fn : string) (e : exception) : exception :=
  Exc (exc_cls e) (exc_msg e) (frame_line line fn +:+ exc_frames e)
      (exc_chain e) (exc_suppress_context e).

Definition at_line {A} (line : nat) (fn : string) (o : outcome A) : outcome A :=
  match o with
  | Raised e st => Raised (add_frame line fn e) st
  | _ => o
  end.

Definition during_handling : string :=
  newline +:+
  "During handling of the above exception, another exception occurred:"
  +:+ newline +:+ newline.

(** The text printed for an exception: the trace as the interpreter
    renders it ([trace]), then the newline that ends its last line. *)
Definition format_exc (trace : exception -> string) (e : exception) : string :=
  trace e +:+ newline.

(** Raising [e] while [ctx] is being handled puts the trace of [ctx] at
    the root of what is displayed before [e], unless [e] was raised with
    a [from] clause. *)
Definition with_context (trace : exception -> string) (ctx e : exception)
  : exception :=
  if exc_suppress_context e then e
  else Exc (exc_cls e) (exc_msg e) (exc_frames e)
           (format_exc trace ctx +:+ during_handling +:+ exc_chain e) false.

(** [traceback.print_exc()]: prints to [sys.stderr]; with [sys.stderr]
    set to [None] the text goes where [print] sends it. *)
Definition traceback_print_exc (trace : exception -> string) (e : exception)
  (st : pystate) : outcome unit :=
  match sys_stderr st with
  | VNone =>
      match sys_stdout st with
      | VNone => Normal tt st
      | target => stream_write target (format_exc trace e) st
      end
  | target => stream_write target (format_exc trace e) st
  end.

(** ** The interpreter, seen from the bridge *)

(** What the bridge needs from the embedded interpreter: the effect of
    the calls [eval(code, globals())] (line 10 of the wrapper),
    [print(val)] (line 12) and [exec(code, globals())] (line 15) as the
    names [eval], [print] and [exec] resolve when the line runs, how a
    trace is rendered, and the C-API calls of [applepye_execute] that can
    fail. *)
Record Interp := {
  py_eval : string -> pystate -> outcome value;
  py_exec : string -> pystate -> outcome unit;
  (* print(val) at line 12: the builtin [py_print] unless the script has
     bound the name print to something else *)
  py_print_call : value -> pystate -> outcome unit;
  (* the trace of an exception as traceback.print_exc() and PyErr_Print()
     render it, without the newline that ends it *)
  py_trace : exception -> string;
  (* PyUnicode_FromString: the decoded text, or None for NULL *)
  PyUnicode_FromString : string -> option string;
  (* PyDict_SetItemString returns non-zero on this state *)
  PyDict_SetItemString_fails : pystate -> bool;
  (* PyUnicode_AsUTF8: the encoded text, or None for NULL *)
  PyUnicode_AsUTF8 : string -> option string
}.

(** A name looked up in the global namespace. *)
Definition lookup_global (x : string) (st : pystate) : outcome value :=
  match globals st !! x with
  | Some v => Normal v st
  | None => Raised (Fault NameError ("name '" +:+ x +:+ "' is not defined")) st
  end.

(** [obj.getvalue()]: only [io.StringIO] objects have it (objects with
    methods of the script's own making are outside the values modelled). *)
Definition py_getvalue (obj : value) (st : pystate) : outcome value :=
  match obj with
  | VStringIO n =>
      match stringios st !! n with
      | Some text => Normal (VStr text) st
      | None => Raised (Fault AttributeError "getvalue") st
      end
  | _ => Raised (Fault AttributeError "getvalue") st
  end.

(** [obj.stdout = v] and [obj.stderr = v].  On the [sys] module this sets
    the stream; objects with an attribute dictionary of their own accept
    the assignment (it does not reach [sys]); the others refuse it. *)
Definition py_setattr_stream (obj : value) (err : bool) (v : value)
  (st : pystate) : outcome unit :=
  match obj with
  | VModule m =>
      if String.eqb m "sys"
      then Normal tt (if err then set_sys_stderr v st else set_sys_stdout v st)
      else Normal tt st
  | VFile _ | VStringIO _ | VFunction _ => Normal tt st
  | VNone | VInt _ | VStr _ | VBuiltin _ | VClass _ =>
      Raised (Fault AttributeError (if err then "stderr" else "stdout")) st
  end.

(** ** The wrapper program of [applepye_execute] *)

Section Wrapper.
Variable I : Interp.

(** The [except Exception:] clause of [_applepye_run] (lines 13 to 18):
    run the source as statements; a fault deriving from [Exception] is
    printed by [traceback.print_exc()], any other fault leaves the
    function.  [ctx] is the exception being handled. *)
Definition run_fallback (ctx : exception) (code : string) (st : pystate)
  : outcome unit :=
  match py_exec I code st with
  | Normal _ st1 => Normal tt st1
  | Raised e st1 =>
      let e := with_context (py_trace I) ctx (add_frame 15 "_applepye_run" e) in
      if is_Exception (exc_cls e)
      then match traceback_print_exc (py_trace I) e st1 with
           | Normal _ st2 => Normal tt st2
           | Raised e2 st2 =>
               Raised (with_context (py_trace I) e
                         (add_frame 18 "_applepye_run" e2)) st2
           | Diverges => Diverges
           end
      else Raised e st1
  | Diverges => Diverges
  end.

(** The body of [def _applepye_run(code)] (lines 8 to 20).  The
    [finally: pass] clause does nothing. *)
Definition _applepye_run (code : string) (st : pystate) : outcome unit :=
  match py_eval I code st with
  | Normal val st1 =>
      match val with
      | VNone => Normal tt st1
      | _ =>
          match py_print_call I val st1 with
          | Normal _ st2 => Normal tt st2
          | Raised e st2 =>
              let e := add_frame 12 "_applepye_run" e in
              if is_Exception (exc_cls e) then run_fallback e code st2
              else Raised e st2
          | Diverges => Diverges
          end
      end
  | Raised e st1 =>
      let e := add_frame 10 "_applepye_run" e in
      if is_Exception (exc_cls e) then run_fallback e code st1
      else Raised e st1
  | Diverges => Diverges
  end.

(** Lines 1 to 7 of the wrapper, up to the [def]. *)
Definition wrapper_prologue (st : pystate) : pystate :=
  let st := bind_global "sys" (VModule "sys") st in
  let st := bind_global "io" (VModule "io") st in
  let st := bind_global "_applepye_old_stdout" (sys_stdout st) st in
  let st := bind_global "_applepye_old_stderr" (sys_stderr st) st in
  let buf := VStringIO (List.length (stringios st)) in
  let st := set_stringios (stringios st ++ [""]) st in
  let st := bind_global "_applepye_buf" buf st in
  let st := set_sys_stdout buf st in
  let st := set_sys_stderr buf st in
  bind_global "_applepye_run" (VFunction "_applepye_run") st.

(** The call [_applepye_run(__APPLEPYE_CODE__)] at line 22. *)
Definition wrapper_call (st : pystate) : outcome unit :=
  at_line 22 "<module>"
    (let* (f, st) := lookup_global "_applepye_run" st in
     let* (code, st) := lookup_global "__APPLEPYE_CODE__" st in
     match f, code with
     | VFunction _, VStr src => _applepye_run src st
     | _, _ => Raised (Fault TypeError "object is not callable") st
     end).

(** The three lines after the call (23 to 25). *)
Definition wrapper_epilogue (st : pystate) : outcome unit :=
  let* (text, st) :=
    at_line 23 "<module>"
      (let* (buf, st) := lookup_global "_applepye_buf" st in
       py_getvalue buf st) in
  let st := bind_global "result" text st in
  let* (_u, st) :=
    at_line 24 "<module>"
      (let* (old_out, st) := lookup_global "_applepye_old_stdout" st in
       let* (sys1, st) := lookup_global "sys" st in
       py_setattr_stream sys1 false old_out st) in
  at_line 25 "<module>"
    (let* (old_err, st) := lookup_global "_applepye_old_stderr" st in
     let* (sys2, st) := lookup_global "sys" st in
     py_setattr_stream sys2 true old_err st).

Definition wrapper (st : pystate) : outcome unit :=
  let* (_u, st) := wrapper_call (wrapper_prologue st) in
  wrapper_epilogue st.

(** ** The C-API calls around the wrapper *)

(** [PyErr_Print()] for a fault other than [SystemExit]: the trace goes to
    the object bound to [sys.stderr]; nothing is printed when that is
    [None], and a failing write is dropped. *)
Definition PyErr_Print (e : exception) (st : pystate) : pystate :=
  match sys_stderr st with
  | VNone => st
  | target =>
      match stream_write target (format_exc (py_trace I) e) st with
      | Normal _ st1 => st1
      | Raised _ st1 => st1
      | Diverges => st
      end
  end.

(** What [PyRun_SimpleString] does to the calling process. *)
Inductive run_result :=
| RunReturned (res : Z) (st : pystate)   (* 0, or -1 after a printed fault *)
| RunExited (st : pystate)               (* SystemExit: the process exits *)
| RunHangs.

Definition PyRun_SimpleString (prog : pystate -> outcome unit) (st : pystate)
  : run_result :=
  match prog st with
  | Normal _ st1 => RunReturned 0 st1
  | Raised e st1 =>
      match exc_cls e with
      | SystemExit => RunExited st1
      | _ => RunReturned (-1) (PyErr_Print e st1)
      end
  | Diverges => RunHangs
  end.

End Wrapper.

(** ** The C side *)

(** The host process: lifecycle of the embedded runtime, the lock of the
    calling thread, what [malloc] can still hand out, and the interpreter
    state. *)
Record host := mkHost {
  py_initialized : bool;     (* Py_IsInitialized() *)
  init_count : nat;          (* how many times Py_Initialize brought the runtime up *)
  fini_count : nat;          (* how many times Py_Finalize tore it down *)
  gil_held : bool;           (* the calling thread holds the interpreter lock *)
  heap_free : N;             (* bytes malloc can still allocate *)
  py : pystate
}.

Definition set_gil (b : bool) (h : host) : host :=
  mkHost (py_initialized h) (init_count h) (fini_count h) b (heap_free h) (py h).
Definition set_py (st : pystate) (h : host) : host :=
  mkHost (py_initialized h) (init_count h) (fini_count h) (gil_held h)
         (heap_free h) st.

(** A C string ends at its first NUL byte. *)
Fixpoint c_string (s : string) : string :=
  match s with
  | EmptyString => EmptyString
  | String c r => if Ascii.eqb c zero then EmptyString else String c (c_string r)
  end.

Definition strlen (s : string) : N := N.of_nat (String.length (c_string s)).

(** [malloc(n)]: the block is granted when the allocator has [n] bytes. *)
Definition malloc (n : N) (h : host) : bool * host :=
  if (n <=? heap_free h)%N
  then (true, mkHost (py_initialized h) (init_count h) (fini_count h)
                     (gil_held h) (heap_free h - n)%N (py h))
  else (false, h).

(** [_dup_str]: [None] as argument is the NULL pointer, [None] as result
    is the NULL return. *)
Definition _dup_str (s : option string) (h : host) : option string * host :=
  let s := match s with Some s => s | None => "" end in
  let n := strlen s in
  match malloc (n + 1)%N h with
  | (true, h1) => (Some (c_string s), h1)
  | (false, h1) => (None, h1)
  end.

(** A freshly started interpreter: empty [__main__], the streams bound to
    the process streams, nothing written. *)
Definition fresh_py : pystate :=
  mkPy ∅ (VFile Fd_stdout) (VFile Fd_stderr) [] "" "".

(** [PyGILState_Ensure] hands back the previous lock state, which
    [PyGILState_Release] reinstates.  This is the pair on a live runtime,
    as [applepye_execute] uses it (initialize-first is the caller's
    obligation). *)
Definition PyGILState_Ensure (h : host) : bool * host := (gil_held h, set_gil true h).
Definition PyGILState_Release (gstate : bool) (h : host) : host := set_gil gstate h.

(** The host process after a lifecycle call: still running, or aborted by
    a fatal error of the runtime. *)
Inductive process :=
| Running (h : host)
| Aborted.

(** [PyGILState_Release] needs the thread state of the runtime.  Once
    [Py_Finalize] has destroyed it the call is a fatal error (no thread
    state for this thread) and the process is aborted. *)
Definition PyGILState_Release_checked (gstate : bool) (h : host) : process :=
  if py_initialized h then Running (PyGILState_Release gstate h) else Aborted.

(** [Py_Initialize] starts a runtime with a new [__main__]; the thread
    that called it holds the lock.  [Py_Finalize] destroys the runtime
    with its namespace. *)
Definition Py_Initialize (h : host) : host :=
  mkHost true (S (init_count h)) (fini_count h) true (heap_free h) fresh_py.
Definition PyEval_InitThreads (h : host) : host := h.
Definition PyEval_SaveThread (h : host) : host := set_gil false h.
Definition Py_Finalize (h : host) : host :=
  mkHost false (init_count h) (S (fini_count h)) (gil_held h) (heap_free h) fresh_py.

Definition applepye_initialize (h : host) : host :=
  if negb (py_initialized h)
  then PyEval_SaveThread (PyEval_InitThreads (Py_Initialize h))
  else h.

Definition applepye_finalize (h : host) : process :=
  if py_initialized h
  then let '(gstate, h1) := PyGILState_Ensure h in
       PyGILState_Release_checked gstate (Py_Finalize h1)
  else Running h.

(** How a call of [applepye_execute] ends. *)
Inductive exec_result :=
| Returned (out : option string) (h : host)   (* None is a NULL return *)
| ProcessExit (h : host)                      (* the host process has exited *)
| Hangs.

Definition msg_create_failed : string := "/* failed to create Python code string */".
Definition msg_set_failed : string := "/* failed to set __APPLEPYE_CODE__ */".

Definition returning (r : option string * host) : exec_result :=
  Returned (fst r) (snd r).

(** [applepye_execute] on a thread whose error indicator is clear, so
    that lines 68 and 69 hand back [__main__] and its dictionary ([py h]
    holds it).  The error indicator itself, and what a call that finds it
    set does, are in [applepye_execute_thread] below. *)
Definition applepye_execute (I : Interp) (code_c : option string) (h : host)
  : exec_result :=
  match code_c with
  | None => returning (_dup_str (Some "") h)
  | Some code =>
      let '(gstate, h) := PyGILState_Ensure h in
      match PyUnicode_FromString I (c_string code) with
      | None =>
          returning (_dup_str (Some msg_create_failed) (PyGILState_Release gstate h))
      | Some src =>
          if PyDict_SetItemString_fails I (py h)
          then returning (_dup_str (Some msg_set_failed) (PyGILState_Release gstate h))
          else
            let st := bind_global "__APPLEPYE_CODE__" (VStr src) (py h) in
            match PyRun_SimpleString I (wrapper I) st with
            | RunReturned _ st1 =>
                let '(out, h1) :=
                  match globals st1 !! "result" with
                  | Some (VStr s) =>
                      match PyUnicode_AsUTF8 I s with
                      | Some t => _dup_str (Some t) h
                      | None => _dup_str (Some "") h
                      end
                  | _ => _dup_str (Some "") h
                  end in
                let st2 := del_global "result" (del_global "__APPLEPYE_CODE__" st1) in
                Returned out (PyGILState_Release gstate (set_py st2 h1))
            | RunExited st1 => ProcessExit (set_py st1 h)
            | RunHangs => Hangs
            end
      end
  end.

(** ** The error indicator of the calling thread

    A C-API call that fails leaves an exception pending on the thread
    until somebody clears it; [applepye_execute] never does. *)

(** Whether the cleanup after [PyRun_SimpleString] (lines 93 to 104)
    leaves an exception pending: [PyUnicode_AsUTF8] failed on a string
    [result], or one of the two [PyDict_DelItemString] calls found its key
    absent ([KeyError]).  [PyRun_SimpleString] itself returns with the
    indicator clear, and [PyDict_GetItemString] swallows its errors. *)
Definition pending_after_cleanup (I : Interp) (st1 : pystate) : bool :=
  match globals st1 !! "result" with
  | Some (VStr s) =>
      match PyUnicode_AsUTF8 I s with
      | Some _ => false
      | None => true
      end
  | Some _ => false
  | None => true
  end
  || match globals st1 !! "__APPLEPYE_CODE__" with
     | Some _ => false
     | None => true
     end.

(** The error indicator a call leaves that entered with it clear. *)
Definition pending_after (I : Interp) (code : string) (h : host) : bool :=
  match PyUnicode_FromString I (c_string code) with
  | None => true
  | Some src =>
      if PyDict_SetItemString_fails I (py h) then true
      else
        match PyRun_SimpleString I (wrapper I)
                (bind_global "__APPLEPYE_CODE__" (VStr src) (py h)) with
        | RunReturned _ st1 => pending_after_cleanup I st1
        | RunExited _ | RunHangs => false
        end
  end.

(** How a call ends on a thread: it completes as [applepye_execute] says
    and leaves the indicator set or clear, or the process dies of a
    segmentation fault. *)
Inductive call_result :=
| Completed (r : exec_result) (pending : bool)
| Segfault.

(** [applepye_execute] on a thread whose indicator is [pending].  A NULL
    source returns before any call of the interpreter.  Otherwise, with
    an exception pending, [PyImport_AddModule] (line 68) returns NULL and
    the unchecked [PyModule_GetDict] (line 69) dereferences it. *)
Definition applepye_execute_thread (I : Interp) (code_c : option string)
  (pending : bool) (h : host) : call_result :=
  match code_c with
  | None => Completed (applepye_execute I None h) pending
  | Some code =>
      if pending then Segfault
      else Completed (applepye_execute I (Some code) h) (pending_after I code h)
  end.

(** ** MiniPy: an executable fragment of the interpreter

    Expressions: integer literals, [None], names, [+], [//], [or],
    parentheses, and calls of [print] and [exit] with at most one
    argument ([exit] raises [SystemExit], as the one installed by [site]
    does).  Statements, one per line: assignment to a name, [del],
    [raise], [pass], and expression statements.  A source outside this
    grammar is rejected with [SyntaxError]. *)

Module MiniPy.

Inductive token :=
| TNum (n : N)
| TId (s : string)
| TOp (s : string)
| TBad.

(** What the lexer has read of the token in progress. *)
Inductive pending :=
| PNone
| PNum (n : N) (zero_first : bool)
| PId (s : string)
| PSlash.

Definition is_digit (c : ascii) : bool :=
  let n := N_of_ascii c in ((48 <=? n) && (n <=? 57))%N.
Definition is_alpha (c : ascii) : bool :=
  let n := N_of_ascii c in
  (((65 <=? n) && (n <=? 90)) || ((97 <=? n) && (n <=? 122)) || (n =? 95))%N.
Definition is_blank (c : ascii) : bool :=
  let n := N_of_ascii c in ((n =? 32) || (n =? 9))%N.
Definition digit_val (c : ascii) : N := (N_of_ascii c - 48)%N.

Definition flush (p : pending) : list token :=
  match p with
  | PNone => []
  | PNum n _ => [TNum n]
  | PId s => [TId s]
  | PSlash => [TBad]
  end.

Fixpoint lex (s : string) (p : pending) : list token :=
  match s with
  | EmptyString => flush p
  | String c r =>
      if is_digit c then
        match p with
        | PNum n zero_first =>
            (* a literal that starts with 0 holds zeros only *)
            if zero_first && negb (digit_val c =? 0)%N
            then TBad :: lex r PNone
            else lex r (PNum (10 * n + digit_val c)%N zero_first)
        | PId x => lex r (PId (x +:+ String c ""))
        | _ => flush p ++ lex r (PNum (digit_val c) (digit_val c =? 0)%N)
        end
      else if is_alpha c then
        match p with
        | PId x => lex r (PId (x +:+ String c ""))
        | PNum _ _ => TBad :: lex r PNone
        | _ => flush p ++ lex r (PId (String c ""))
        end
      else if Ascii.eqb c "/" then
        match p with
        | PSlash => TOp "//" :: lex r PNone
        | _ => flush p ++ lex r PSlash
        end
      else if is_blank c then flush p ++ lex r PNone
      else if Ascii.eqb c "=" || Ascii.eqb c "+" || Ascii.eqb c "(" || Ascii.eqb c ")"
      then flush p ++ TOp (String c "") :: lex r PNone
      else flush p ++ TBad :: lex r PNone
  end.

Definition tokens (s : string) : list token := lex s PNone.

Inductive expr :=
| ENum (z : Z)
| ENone
| EName (x : string)
| EAdd (a b : expr)
| EFloorDiv (a b : expr)
| EOr (a b : expr)
| ECall0 (f : string)
| ECall1 (f : string) (arg : expr).

Inductive stmt :=
| SExpr (e : expr)
| SAssign (x : string) (e : expr)
| SDel (x : string)
| SRaise (e : expr)
| SPass.

Definition is_keyword (x : string) : bool :=
  String.eqb x "or" || String.eqb x "del" || String.eqb x "raise"
  || String.eqb x "pass" || String.eqb x "None".

Definition is_callable_name (x : string) : bool :=
  String.eqb x "print" || String.eqb x "exit".

(** Recursive descent with precedence levels: 0 is [or], 1 is [+], 2 is
    [//], 3 is an atom.  [fuel] bounds the depth. *)
Fixpoint parse (fuel : nat) (level : nat) (ts : list token)
  : option (expr * list token) :=
  match fuel with
  | O => None
  | S f =>
      match level with
      | 0%nat | 1%nat | 2%nat =>
          match parse f (S level) ts with
          | Some (a, r) => parse_rest f level a r
          | None => None
          end
      | _ =>
          match ts with
          | TNum n :: r => Some (ENum (Z.of_N n), r)
          | TId x :: r =>
              if String.eqb x "None" then Some (ENone, r)
              else if is_keyword x then None
              else
                match r with
                | TOp "(" :: TOp ")" :: r1 =>
                    if is_callable_name x then Some (ECall0 x, r1) else None
                | TOp "(" :: r1 =>
                    if is_callable_name x then
                      match parse f 0 r1 with
                      | Some (a, TOp ")" :: r2) => Some (ECall1 x a, r2)
                      | _ => None
                      end
                    else None
                | _ => Some (EName x, r)
                end
          | TOp "(" :: r =>
              match parse f 0 r with
              | Some (a, TOp ")" :: r1) => Some (a, r1)
              | _ => None
              end
          | _ => None
          end
      end
  end
with parse_rest (fuel : nat) (level : nat) (acc : expr) (ts : list token)
  : option (expr * list token) :=
  match fuel with
  | O => None
  | S f =>
      match level, ts with
      | 0%nat, TId "or" :: r =>
          match parse f 1 r with
          | Some (b, r1) => parse_rest f level (EOr acc b) r1
          | None => None
          end
      | 1%nat, TOp "+" :: r =>
          match parse f 2 r with
          | Some (b, r1) => parse_rest f level (EAdd acc b) r1
          | None => None
          end
      | 2%nat, TOp "//" :: r =>
          match parse f 3 r with
          | Some (b, r1) => parse_rest f level (EFloorDiv acc b) r1
          | None => None
          end
      | _, _ => Some (acc, ts)
      end
  end.

Definition parse_expr (ts : list token) : option expr :=
  match parse (8 * S (List.length ts)) 0 ts with
  | Some (e, []) => Some e
  | _ => None
  end.

Definition parse_stmt (ts : list token) : option stmt :=
  match ts with
  | [TId "pass"] => Some SPass
  | [TId "del"; TId x] => if is_keyword x then None else Some (SDel x)
  | TId "raise" :: r => option_map SRaise (parse_expr r)
  | TId x :: TOp "=" :: r =>
      if is_keyword x then None else option_map (SAssign x) (parse_expr r)
  | _ => option_map SExpr (parse_expr ts)
  end.

(** The lines of a source, split at the newline character. *)
Fixpoint split_lines (s : string) (cur : string) : list string :=
  match s with
  | EmptyString => [cur]
  | String c r =>
      if Ascii.eqb c (ascii_of_nat 10)
      then cur :: split_lines r ""
      else split_lines r (cur +:+ String c "")
  end.

Definition starts_blank (s : string) : bool :=
  match s with
  | String c _ => is_blank c
  | EmptyString => false
  end.

(** The lines with their numbers, counted from [n]. *)
Fixpoint number_lines (ls : list string) (n : nat) : list (nat * string) :=
  match ls with
  | [] => []
  | l :: r => (n, l) :: number_lines r (S n)
  end.

Definition nonblank_lines (src : string) : list (nat * string) :=
  List.filter
    (fun l => negb (match tokens (snd l) with [] => true | _ => false end))
    (number_lines (split_lines src "") 1).

(** [compile(src, "<string>", "exec")]: every line is a statement; an
    indented line is an error.  Each statement keeps its line number. *)
Fixpoint parse_lines (ls : list (nat * string)) : option (list (nat * stmt)) :=
  match ls with
  | [] => Some []
  | (n, l) :: r =>
      if starts_blank l then None
      else match parse_stmt (tokens l), parse_lines r with
           | Some s, Some ss => Some ((n, s) :: ss)
           | _, _ => None
           end
  end.

Definition parse_exec (src : string) : option (list (nat * stmt)) :=
  parse_lines (nonblank_lines src).

(** [compile(src, "<string>", "eval")]: exactly one line, an expression. *)
Definition parse_eval (src : string) : option (nat * expr) :=
  match nonblank_lines src with
  | [(n, l)] => option_map (pair n) (parse_expr (tokens l))
  | _ => None
  end.

(** *** Evaluation *)

Definition exception_classes : list exc_class :=
  [SyntaxError; NameError; TypeError; ZeroDivisionError; AttributeError;
   OtherException "Exception"; KeyboardInterrupt; SystemExit; GeneratorExit].

Definition builtin (x : string) : option value :=
  if is_callable_name x then Some (VBuiltin x)
  else option_map VClass
         (List.find (fun c => String.eqb (class_name c) x) exception_classes).

(** A name is looked up in the global namespace, then in the builtins. *)
Definition lookup_name (x : string) (st : pystate) : outcome value :=
  match globals st !! x with
  | Some v => Normal v st
  | None =>
      match builtin x with
      | Some v => Normal v st
      | None => Raised (Fault NameError ("name '" +:+ x +:+ "' is not defined")) st
      end
  end.

Definition truthy (v : value) : bool :=
  match v with
  | VNone => false
  | VInt z => negb (z =? 0)
  | VStr s => negb (String.eqb s "")
  | _ => true
  end.

Definition type_error (m : string) (st : pystate) : outcome value :=
  Raised (Fault TypeError m) st.

Definition py_add (a b : value) (st : pystate) : outcome value :=
  match a, b with
  | VInt x, VInt y => Normal (VInt (x + y)) st
  | VStr x, VStr y => Normal (VStr (x +:+ y)) st
  | _, _ => type_error "unsupported operand type(s) for +" st
  end.

(** Floor division.  The wording of the messages of [ZeroDivisionError]
    and [TypeError] varies with the version of the interpreter; no
    statement below depends on it. *)
Definition py_floordiv (a b : value) (st : pystate) : outcome value :=
  match a, b with
  | VInt x, VInt y =>
      if y =? 0
      then Raised (Fault ZeroDivisionError "integer division or modulo by zero") st
      else Normal (VInt (x / y)) st
  | _, _ => type_error "unsupported operand type(s) for //" st
  end.

(** Calling [f] on the (optional) argument [arg]. *)
Definition py_call (f : value) (arg : option value) (st : pystate)
  : outcome value :=
  match f with
  | VBuiltin "print" =>
      let v := match arg with Some v => v | None => VStr "" end in
      let* (_u, st) := py_print v st in Normal VNone st
  | VBuiltin "exit" =>
      let code := match arg with Some v => str_of_value v | None => "" end in
      Raised (Fault SystemExit code) st
  | _ => type_error "object is not callable" st
  end.

Fixpoint eval_expr (e : expr) (st : pystate) : outcome value :=
  match e with
  | ENum z => Normal (VInt z) st
  | ENone => Normal VNone st
  | EName x => lookup_name x st
  | EAdd a b =>
      let* (x, st) := eval_expr a st in
      let* (y, st) := eval_expr b st in
      py_add x y st
  | EFloorDiv a b =>
      let* (x, st) := eval_expr a st in
      let* (y, st) := eval_expr b st in
      py_floordiv x y st
  | EOr a b =>
      let* (x, st) := eval_expr a st in
      if truthy x then Normal x st else eval_expr b st
  | ECall0 f =>
      let* (fv, st) := lookup_name f st in
      py_call fv None st
  | ECall1 f a =>
      let* (fv, st) := lookup_name f st in
      let* (x, st) := eval_expr a st in
      py_call fv (Some x) st
  end.

Definition exec_stmt (s : stmt) (st : pystate) : outcome unit :=
  match s with
  | SExpr e => let* (_v, st) := eval_expr e st in Normal tt st
  | SAssign x e => let* (v, st) := eval_expr e st in Normal tt (bind_global x v st)
  | SDel x =>
      match globals st !! x with
      | Some _ => Normal tt (del_global x st)
      | None => Raised (Fault NameError ("name '" +:+ x +:+ "' is not defined")) st
      end
  | SRaise e =>
      let* (v, st) := eval_expr e st in
      match v with
      | VClass c => Raised (Fault c "") st
      | _ => Raised (Fault TypeError "exceptions must derive from BaseException") st
      end
  | SPass => Normal tt st
  end.

(** The statements in order; a fault leaves the module code at the line
    of its statement. *)
Fixpoint exec_stmts (ss : list (nat * stmt)) (st : pystate) : outcome unit :=
  match ss with
  | [] => Normal tt st
  | (n, s) :: r =>
      let* (_u, st) := at_line n "<module>" (exec_stmt s st) in exec_stmts r st
  end.

(** The fault of a source that does not compile.  Its trace names the
    place instead of a frame (the lines quoting the source and marking
    the column are left out). *)
Definition syntax_error (A : Type) (st : pystate) : outcome A :=
  Raised (Exc SyntaxError "invalid syntax"
              ("  File " +:+ dquote +:+ "<string>" +:+ dquote +:+ ", line 1"
               +:+ newline) "" false) st.

Definition eval (src : string) (st : pystate) : outcome value :=
  match parse_eval src with
  | Some (n, e) => at_line n "<module>" (eval_expr e st)
  | None => syntax_error value st
  end.

Definition exec (src : string) (st : pystate) : outcome unit :=
  match parse_exec src with
  | Some ss => exec_stmts ss st
  | None => syntax_error unit st
  end.

(** The trace of a fault of the fragment: what came before it, the
    header, the frame lines, and the line naming the class, with the
    message when there is one. *)
Definition trace (e : exception) : string :=
  exc_chain e +:+ "Traceback (most recent call last):" +:+ newline +:+
  exc_frames e +:+ class_name (exc_cls e) +:+
  (if String.eqb (exc_msg e) "" then "" else ": " +:+ exc_msg e).

End MiniPy.

(** [PyUnicode_FromString] decodes UTF-8 and fails on a malformed
    sequence.  [need] continuation bytes are still expected, the next one
    within [lo..hi]. *)
Fixpoint utf8_valid (s : string) (need : nat) (lo hi : N) : bool :=
  match s with
  | EmptyString => match need with O => true | _ => false end
  | String c r =>
      let b := N_of_ascii c in
      match need with
      | O =>
          if (b <? 128)%N then utf8_valid r 0 128 191
          else if ((194 <=? b) && (b <=? 223))%N then utf8_valid r 1 128 191
          else if (b =? 224)%N then utf8_valid r 2 160 191
          else if (b =? 237)%N then utf8_valid r 2 128 159
          else if ((225 <=? b) && (b <=? 239))%N then utf8_valid r 2 128 191
          else if (b =? 240)%N then utf8_valid r 3 144 191
          else if ((241 <=? b) && (b <=? 243))%N then utf8_valid r 3 128 191
          else if (b =? 244)%N then utf8_valid r 3 128 143
          else false
      | S k =>
          if ((lo <=? b) && (b <=? hi))%N then utf8_valid r k 128 191 else false
      end
  end.

Definition utf8_decode (s : string) : option string :=
  if utf8_valid s 0 128 191 then Some s else None.

(** The fragment as an interpreter: both dictionary insertion and
    encoding of the result succeed, and the [print] of line 12 is the
    builtin (the fragment takes the builtins of the wrapper's own lines as
    not shadowed). *)
Definition minipy : Interp := {|
  py_eval := MiniPy.eval;
  py_exec := MiniPy.exec;
  py_print_call := py_print;
  py_trace := MiniPy.trace;
  PyUnicode_FromString := utf8_decode;
  PyDict_SetItemString_fails := fun _ => false;
  PyUnicode_AsUTF8 := Some
|}.

(** The same interpreter out of memory for dictionary insertion. *)
Definition minipy_nomem : Interp := {|
  py_eval := MiniPy.eval;
  py_exec := MiniPy.exec;
  py_print_call := py_print;
  py_trace := MiniPy.trace;
  PyUnicode_FromString := utf8_decode;
  PyDict_SetItemString_fails := fun _ => true;
  PyUnicode_AsUTF8 := Some
|}.

(** The host after [applepye_initialize], with [heap] bytes to allocate. *)
Definition ready_host (heap : N) : host :=
  mkHost true 1 0 false heap fresh_py.

(** What a call returned. *)
Definition output_of (r : exec_result) : option (option string) :=
  match r with Returned out _ => Some out | _ => None end.

(** ** Auxiliary notions for the statements *)

(** The names the wrapper binds for its own use. *)
Definition helper_names : list string :=
  ["sys"; "io"; "_applepye_old_stdout"; "_applepye_old_stderr";
   "_applepye_buf"; "_applepye_run"].

(** The interpreter state in which the script starts: the source bound by
    the C code, then the wrapper's prologue. *)
Definition run_state (src : string) (st : pystate) : pystate :=
  wrapper_prologue (bind_global "__APPLEPYE_CODE__" (VStr src) st).

(** The state a piece of Python leaves behind, when it comes back. *)
Definition final_state {A} (o : outcome A) : option pystate :=
  match o with
  | Normal _ st | Raised _ st => Some st
  | Diverges => None
  end.

(** What the three closing lines leave: they come back (normally or with
    a fault that is not [SystemExit]), and the namespace is the one they
    found, possibly with [result] bound. *)
Definition epilogue_post (G : pystate -> Prop) (o : outcome unit) : Prop :=
  match o with
  | Normal _ st' => G st'
  | Raised e st' => exc_cls e <> SystemExit /\ G st'
  | Diverges => False
  end.

(** The text handed to [_dup_str] for a [result] holding [text]. *)
Definition result_text (I : Interp) (text : string) : string :=
  match PyUnicode_AsUTF8 I text with
  | Some t => t
  | None => ""
  end.

(** A byte that is no UTF-8 sequence. *)
Definition bad_utf8 : string := String (ascii_of_nat 255) "".


(** The text in the capture buffer created by the call. *)
Definition captured (st : pystate) : option string :=
  match globals st !! "_applepye_buf" with
  | Some (VStringIO n) => stringios st !! n
  | _ => None
  end.


(** The two names the C code and the wrapper use for one call only. *)
Definition temporary_names : list string := ["result"; "__APPLEPYE_CODE__"].

(** The fragment on an interpreter that cannot encode its strings
    ([PyUnicode_AsUTF8] returns NULL). *)
Definition minipy_noencode : Interp := {|
  py_eval := MiniPy.eval;
  py_exec := MiniPy.exec;
  py_print_call := py_print;
  py_trace := MiniPy.trace;
  PyUnicode_FromString := utf8_decode;
  PyDict_SetItemString_fails := fun _ => false;
  PyUnicode_AsUTF8 := fun _ => None
|}.

(** A script that binds [result] itself and then raises a fault that
    [except Exception] does not catch. *)
Definition src_result_then_interrupt : string :=
  "result = __APPLEPYE_CODE__" +:+ newline +:+ "raise KeyboardInterrupt".

(** What [applepye_execute] reads back from the namespace once
    [PyRun_SimpleString] has returned: the text of [result] when it is a
    string, the empty text otherwise. *)
Definition fetched_text (I : Interp) (st : pystate) : string :=
  match globals st !! "result" with
  | Some (VStr s) => result_text I s
  | _ => ""
  end.

(** * Properties *)

(** ** The wrapper around the script *)

Lemma globals_set_stringios l st : globals (set_stringios l st) = globals st.
Proof. reflexivity. Qed.

Lemma globals_set_sys_stdout v st : globals (set_sys_stdout v st) = globals st.
Proof. reflexivity. Qed.

Lemma globals_set_sys_stderr v st : globals (set_sys_stderr v st) = globals st.
Proof. reflexivity. Qed.

Lemma globals_bind_global x v st :
  globals (bind_global x v st) = <[x := v]> (globals st).
Proof. reflexivity. Qed.

Lemma globals_del_global x st :
  globals (del_global x st) = delete x (globals st).
Proof. reflexivity. Qed.

Lemma run_state_globals src st :
  globals (run_state src st) =
  <["_applepye_run" := VFunction "_applepye_run"]>
    (<["_applepye_buf" := VStringIO (List.length (stringios st))]>
       (<["_applepye_old_stderr" := sys_stderr st]>
          (<["_applepye_old_stdout" := sys_stdout st]>
             (<["io" := VModule "io"]>
                (<["sys" := VModule "sys"]>
                   (<["__APPLEPYE_CODE__" := VStr src]> (globals st))))))).
Proof. reflexivity. Qed.

Lemma run_state_streams src st :
  sys_stdout (run_state src st) = VStringIO (List.length (stringios st)) /\
  sys_stderr (run_state src st) = VStringIO (List.length (stringios st)) /\
  stringios (run_state src st) = (stringios st ++ [""])%list /\
  real_stdout (run_state src st) = real_stdout st /\
  real_stderr (run_state src st) = real_stderr st.
Proof. repeat split; reflexivity. Qed.

Lemma run_state_helpers_bound src st x :
  In x helper_names -> is_Some (globals (run_state src st) !! x).
Proof.
  rewrite run_state_globals. simpl.
  intros [<-|[<-|[<-|[<-|[<-|[<-|[]]]]]]]; simplify_map_eq; eauto.
Qed.

(** Writing to a stream touches neither the namespace nor the stream
    bindings. *)
Lemma stream_write_frame target text st st' :
  final_state (stream_write target text st) = Some st' ->
  globals st' = globals st /\ sys_stdout st' = sys_stdout st /\
  sys_stderr st' = sys_stderr st.
Proof.
  unfold stream_write. intros H.
  repeat case_match; simpl in H; simplify_eq; auto.
Qed.

Lemma PyErr_Print_frame (I : Interp) e st :
  globals (PyErr_Print I e st) = globals st /\
  sys_stdout (PyErr_Print I e st) = sys_stdout st /\
  sys_stderr (PyErr_Print I e st) = sys_stderr st.
Proof.
  unfold PyErr_Print.
  destruct (sys_stderr st) eqn:E; auto;
    match goal with
    | |- context [stream_write ?t ?x ?s] =>
        pose proof (stream_write_frame t x s) as F;
        destruct (stream_write t x s); simpl in F; auto;
        destruct (F _ eq_refl) as (?&?&?); rewrite E in *; auto
    end.
Qed.

Lemma wrapper_epilogue_globals st :
  epilogue_post
    (fun st' => globals st' = globals st \/
                exists v, globals st' = <["result" := v]> (globals st))
    (wrapper_epilogue st).
Proof.
  unfold wrapper_epilogue, lookup_global, bind_outcome, py_getvalue,
    py_setattr_stream, epilogue_post.
  repeat (case_match; simpl in *; simplify_eq; try done);
    try (split; [done|]); eauto.
Qed.

(** With the capture buffer still bound, [result] receives its text. *)
Lemma wrapper_epilogue_result st n text :
  globals st !! "_applepye_buf" = Some (VStringIO n) ->
  stringios st !! n = Some text ->
  epilogue_post
    (fun st' => globals st' = <["result" := VStr text]> (globals st))
    (wrapper_epilogue st).
Proof.
  intros Hb Ht.
  unfold wrapper_epilogue, lookup_global, bind_outcome, py_getvalue,
    py_setattr_stream, epilogue_post.
  rewrite Hb. simpl. rewrite Ht. simpl.
  repeat (case_match; simpl in *; simplify_eq; try done);
    try (split; [done|]); eauto.
Qed.

Section WrapperFacts.
Variable I : Interp.

(** The call line of the wrapper starts the script on the bound source. *)
Lemma wrapper_call_run src st :
  wrapper_call I (run_state src st)
  = at_line 22 "<module>" (_applepye_run I src (run_state src st)).
Proof.
  unfold wrapper_call, lookup_global, bind_outcome.
  rewrite run_state_globals. simplify_map_eq. reflexivity.
Qed.

(** Locking and allocation do not see each other. *)
Lemma _dup_str_set_gil s b h :
  fst (_dup_str s (set_gil b h)) = fst (_dup_str s h) /\
  heap_free (snd (_dup_str s (set_gil b h))) = heap_free (snd (_dup_str s h)) /\
  gil_held (snd (_dup_str s (set_gil b h))) = b /\
  py (snd (_dup_str s (set_gil b h))) = py h.
Proof.
  unfold _dup_str, malloc. simpl.
  destruct (_ <=? _)%N; simpl; auto.
Qed.

(** A call whose script comes back to the wrapper with the capture buffer
    still bound: the buffer's text is what the call duplicates, and the
    two temporary names are gone from the namespace. *)
Lemma execute_captured code src h st1 n text :
  PyUnicode_FromString I (c_string code) = Some src ->
  PyDict_SetItemString_fails I (py h) = false ->
  _applepye_run I src (run_state src (py h)) = Normal tt st1 ->
  globals st1 !! "_applepye_buf" = Some (VStringIO n) ->
  stringios st1 !! n = Some text ->
  exists h',
    applepye_execute I (Some code) h =
      Returned (fst (_dup_str (Some (result_text I text)) h)) h' /\
    heap_free h' = heap_free (snd (_dup_str (Some (result_text I text)) h)) /\
    gil_held h' = gil_held h /\
    globals (py h') =
      delete "result" (delete "__APPLEPYE_CODE__"
                         (<["result" := VStr text]> (globals st1))).
Proof.
  intros Hu Hs Hrun Hb Ht.
  unfold applepye_execute, PyGILState_Ensure. simpl.
  rewrite Hu, Hs.
  unfold PyRun_SimpleString, wrapper, bind_outcome.
  change (wrapper_prologue (bind_global "__APPLEPYE_CODE__" (VStr src) (py h)))
    with (run_state src (py h)).
  rewrite wrapper_call_run, Hrun. cbn [at_line].
  pose proof (wrapper_epilogue_result st1 n text Hb Ht) as He.
  destruct (_dup_str_set_gil (Some (result_text I text)) true h) as (D1&D2&D3&D4).
  unfold result_text in *.
  destruct (wrapper_epilogue st1) as [[] st'|e st'|]; simpl in He; [| |done].
  - rewrite He, lookup_insert_eq.
    destruct (PyUnicode_AsUTF8 I text);
      destruct (_dup_str _ (set_gil true h)) as [o hh]; simpl in *;
      (eexists; split; [rewrite D1; reflexivity|]); simpl; rewrite He; auto.
  - destruct He as [Hne He].
    destruct (PyErr_Print_frame I e st') as (G&_&_).
    assert (Hres : globals (PyErr_Print I e st') !! "result" = Some (VStr text))
      by (rewrite G, He, lookup_insert_eq; done).
    destruct (exc_cls e); try done; rewrite Hres;
      destruct (PyUnicode_AsUTF8 I text);
      destruct (_dup_str _ (set_gil true h)) as [o hh]; simpl in *;
      (eexists; split; [rewrite D1; reflexivity|]); simpl; rewrite G, He; auto.
Qed.

End WrapperFacts.

(** ** What a returning call leaves *)

(** The host a call through the wrapper returns: the lock as found, the
    interpreter state [st] without the two temporary names, and the
    allocator after the copy of [r]. *)
Lemma dup_str_frame (s : option string) (h : host) :
  py_initialized (snd (_dup_str s h)) = py_initialized h /\
  init_count (snd (_dup_str s h)) = init_count h /\
  fini_count (snd (_dup_str s h)) = fini_count h /\
  gil_held (snd (_dup_str s h)) = gil_held h /\
  py (snd (_dup_str s h)) = py h.
Proof.
  unfold _dup_str, malloc. destruct (_ <=? _)%N; simpl; auto.
Qed.

(** The fetch of [result] and the return, in one equation. *)
Lemma fetch_shape (I : Interp) (h : host) (st_fin : pystate) :
  (let '(o, h1) :=
     match globals st_fin !! "result" with
     | Some (VStr s) =>
         match PyUnicode_AsUTF8 I s with
         | Some t => _dup_str (Some t) (set_gil true h)
         | None => _dup_str (Some "") (set_gil true h)
         end
     | _ => _dup_str (Some "") (set_gil true h)
     end in
   Returned o (PyGILState_Release (gil_held h)
     (set_py (del_global "result" (del_global "__APPLEPYE_CODE__" st_fin)) h1)))
  = Returned (fst (_dup_str (Some (fetched_text I st_fin)) (set_gil true h)))
      (PyGILState_Release (gil_held h)
         (set_py (del_global "result" (del_global "__APPLEPYE_CODE__" st_fin))
            (snd (_dup_str (Some (fetched_text I st_fin)) (set_gil true h))))).
Proof.
  unfold fetched_text, result_text.
  destruct (globals st_fin !! "result") as [[]|];
    try destruct (PyUnicode_AsUTF8 I s);
    destruct (_dup_str _ (set_gil true h)); reflexivity.
Qed.


(** Every return of a call that reached the wrapper has this shape:
    the script came back leaving [st_run], the wrapper stopped in a state
    [st_fin] whose namespace is that of [st_run], possibly with [result]
    bound, and the text fetched from [st_fin] was duplicated. *)
Lemma execute_returned_inv (I : Interp) (code src : string) (h h' : host)
  (out : option string) :
  PyUnicode_FromString I (c_string code) = Some src ->
  PyDict_SetItemString_fails I (py h) = false ->
  applepye_execute I (Some code) h = Returned out h' ->
  exists st_run st_fin,
    final_state (_applepye_run I src (run_state src (py h))) = Some st_run /\
    (globals st_fin = globals st_run \/
     exists v, globals st_fin = <["result" := v]> (globals st_run)) /\
    out = fst (_dup_str (Some (fetched_text I st_fin)) (set_gil true h)) /\
    h' = PyGILState_Release (gil_held h)
           (set_py (del_global "result" (del_global "__APPLEPYE_CODE__" st_fin))
                   (snd (_dup_str (Some (fetched_text I st_fin)) (set_gil true h)))).
Proof.
  intros Hu Hs.
  unfold applepye_execute, PyGILState_Ensure. simpl.
  rewrite Hu, Hs.
  unfold PyRun_SimpleString, wrapper, bind_outcome.
  change (wrapper_prologue (bind_global "__APPLEPYE_CODE__" (VStr src) (py h)))
    with (run_state src (py h)).
  rewrite wrapper_call_run.
  destruct (_applepye_run I src (run_state src (py h))) as [[] st1|e st1|];
    cbn [at_line add_frame exc_cls].
  - pose proof (wrapper_epilogue_globals st1) as He.
    destruct (wrapper_epilogue st1) as [[] st'|e' st'|]; simpl in He; [| |done].
    + rewrite fetch_shape. intros E. injection E as <- <-.
      exists st1, st'. auto.
    + destruct He as [Hne He].
      destruct (PyErr_Print_frame I e' st') as (G&_&_).
      rewrite <- G in He.
      destruct (exc_cls e'); try done; rewrite fetch_shape; intros E;
        injection E as <- <-; exists st1, (PyErr_Print I e' st'); auto.
  - destruct (exc_cls e); try discriminate; rewrite fetch_shape; intros E;
      injection E as <- <-; eexists st1, _;
      (split; [reflexivity|]); (split; [left; apply PyErr_Print_frame|]);
      split; reflexivity.
  - discriminate.
Qed.

(** ** Lifecycle *)

(** C9 (the code at the failing input): [applepye_finalize] on a runtime
    that is up, such as any [applepye_initialize] leaves, aborts the host
    process: [PyGILState_Release] runs after [Py_Finalize] has destroyed
    the thread state it needs.  So the first of two [applepye_finalize]
    calls in a row already crashes.  The other parts of the claim hold:
    a second [applepye_initialize] changes nothing, the runtime is
    started once, and [applepye_finalize] on a runtime that is down is a
    no-op. *)
Theorem finalize_aborts_live_runtime (h : host) :
  applepye_finalize (applepye_initialize h) = Aborted /\
  (if py_initialized h
   then applepye_finalize h = Aborted
   else applepye_finalize h = Running h) /\
  applepye_initialize (applepye_initialize h) = applepye_initialize h /\
  init_count (applepye_initialize (applepye_initialize h)) =
    (if py_initialized h then init_count h else S (init_count h)).
Proof.
  destruct h as [ini ic fc gil heap st].
  unfold applepye_initialize, applepye_finalize.
  destruct ini; simpl; repeat split; reflexivity.
Qed.

(** ** Allocation failure *)

(** C3 (the code at the failing input): when [malloc] has nothing left,
    [applepye_execute] hands back the NULL pointer of [_dup_str], for a
    NULL source on every interpreter and for the source [5] on the
    fragment. *)
Theorem execute_returns_null_when_malloc_fails
  (I : Interp) (ini : bool) (ic fc : nat) (gil : bool) (st : pystate) :
  applepye_execute I None (mkHost ini ic fc gil 0 st) =
    Returned None (mkHost ini ic fc gil 0 st) /\
  output_of (applepye_execute minipy (Some "5") (ready_host 0)) = Some None.
Proof.
  split.
  - reflexivity.
  - vm_compute. reflexivity.
Qed.

(** ** Failures before the script runs *)

(** When the interpreter cannot build the string for the source, or
    cannot bind it in the namespace, the call returns the fixed
    diagnostic of that failure, with the namespace and the streams as
    they were (nothing has run) and the lock put back. *)
Lemma failure_returns_message (I : Interp) (code : string) (h : host) :
  PyUnicode_FromString I (c_string code) = None \/
  PyDict_SetItemString_fails I (py h) = true ->
  (42 <= heap_free h)%N ->
  exists h',
    applepye_execute I (Some code) h =
      Returned (Some (match PyUnicode_FromString I (c_string code) with
                      | None => msg_create_failed
                      | Some _ => msg_set_failed
                      end)) h' /\
    py h' = py h /\ gil_held h' = gil_held h /\
    py_initialized h' = py_initialized h.
Proof.
  intros Hfail Hheap.
  unfold applepye_execute, PyGILState_Ensure, PyGILState_Release. simpl.
  assert (Hc : (strlen msg_create_failed + 1 <=? heap_free h)%N = true)
    by (apply N.leb_le; vm_compute strlen; lia).
  assert (Hs : (strlen msg_set_failed + 1 <=? heap_free h)%N = true)
    by (apply N.leb_le; vm_compute strlen; lia).
  destruct (PyUnicode_FromString I (c_string code)) as [src|].
  - destruct Hfail as [Hn|Hset]; [discriminate|].
    rewrite Hset. unfold returning, _dup_str, malloc. simpl heap_free.
    rewrite Hs. simpl. eexists. split; [reflexivity|]. auto.
  - unfold returning, _dup_str, malloc. simpl heap_free.
    rewrite Hc. simpl. eexists. split; [reflexivity|]. auto.
Qed.

(** C8 (the code at the failing input): a call whose source cannot be
    built or bound does return the fixed diagnostic without running
    anything, but it leaves the exception of the failed C-API call
    pending on the thread; the next call with a non-NULL source (here the
    same one again) then dies at lines 68 and 69, so the process does
    crash on a source that cannot be constructed. *)
Theorem failure_leaves_exception_pending
  (I : Interp) (code next : string) (h : host) :
  PyUnicode_FromString I (c_string code) = None \/
  PyDict_SetItemString_fails I (py h) = true ->
  (42 <= heap_free h)%N ->
  exists h',
    applepye_execute_thread I (Some code) false h =
      Completed
        (Returned (Some (match PyUnicode_FromString I (c_string code) with
                         | None => msg_create_failed
                         | Some _ => msg_set_failed
                         end)) h')
        true /\
    py h' = py h /\
    applepye_execute_thread I (Some code) true h' = Segfault /\
    applepye_execute_thread I (Some next) true h' = Segfault.
Proof.
  intros Hfail Hheap.
  destruct (failure_returns_message I code h Hfail Hheap) as (h' & E & P & _).
  exists h'. unfold applepye_execute_thread. rewrite E.
  assert (Hp : pending_after I code h = true).
  { unfold pending_after.
    destruct (PyUnicode_FromString I (c_string code)); [|reflexivity].
    destruct Hfail as [Hn|Hset]; [discriminate|]. rewrite Hset. reflexivity. }
  rewrite Hp. auto.
Qed.

Lemma failure_leaves_exception_pending_witness :
  (exists h',
     applepye_execute_thread minipy (Some bad_utf8) false (ready_host 100) =
       Completed (Returned (Some msg_create_failed) h') true /\
     applepye_execute_thread minipy (Some bad_utf8) true h' = Segfault) /\
  (exists h',
     applepye_execute_thread minipy_nomem (Some "x = 5") false (ready_host 100) =
       Completed (Returned (Some msg_set_failed) h') true /\
     applepye_execute_thread minipy_nomem (Some "x = 5") true h' = Segfault).
Proof.
  split.
  - destruct (failure_leaves_exception_pending minipy bad_utf8 bad_utf8 (ready_host 100))
      as (h' & E & _ & S & _).
    + left. reflexivity.
    + vm_compute. discriminate.
    + exists h'. split; [exact E | exact S].
  - destruct (failure_leaves_exception_pending minipy_nomem "x = 5" "x = 5"
                (ready_host 100)) as (h' & E & _ & S & _).
    + right. reflexivity.
    + vm_compute. discriminate.
    + exists h'. split; [exact E | exact S].
Defined.

(** ** Runs on the fragment *)

Lemma dup_str_success (s : string) (h : host) :
  (strlen s + 1 <= heap_free h)%N ->
  _dup_str (Some s) h =
    (Some (c_string s),
     mkHost (py_initialized h) (init_count h) (fini_count h) (gil_held h)
            (heap_free h - (strlen s + 1))%N (py h)).
Proof.
  intros H. unfold _dup_str, malloc.
  apply N.leb_le in H. rewrite H. reflexivity.
Qed.

(** The buffer created by the prologue is the last [io.StringIO], and it
    is empty when the script starts. *)
Lemma run_state_buffer src st :
  globals (run_state src st) !! "_applepye_buf"
    = Some (VStringIO (List.length (stringios st))) /\
  stringios (run_state src st) !! List.length (stringios st) = Some "".
Proof.
  split.
  - rewrite run_state_globals. simplify_map_eq. reflexivity.
  - destruct (run_state_streams src st) as (_&_&->&_).
    apply list_lookup_middle. reflexivity.
Qed.

Lemma minipy_run_empty st : _applepye_run minipy "" st = Normal tt st.
Proof. reflexivity. Qed.

(** C7: a NULL source returns an owned empty string at once: the lock,
    the lifecycle flags and the interpreter state are those of the
    caller, only the one byte of the copy is gone from the allocator.
    The empty source returns an owned empty string as well. *)
Theorem execute_null_and_empty (I : Interp) (h : host) :
  (1 <= heap_free h)%N ->
  applepye_execute I None h =
    Returned (Some "")
      (mkHost (py_initialized h) (init_count h) (fini_count h) (gil_held h)
              (heap_free h - 1)%N (py h)) /\
  exists h', applepye_execute minipy (Some "") h = Returned (Some "") h'.
Proof.
  intros Hheap. split.
  - unfold applepye_execute, returning.
    rewrite dup_str_success by exact Hheap. reflexivity.
  - destruct (run_state_buffer "" (py h)) as [Hb Ht].
    destruct (execute_captured minipy "" "" h (run_state "" (py h)) _ ""
                eq_refl eq_refl (minipy_run_empty _) Hb Ht)
      as (h' & E & _).
    exists h'. rewrite E.
    change (result_text minipy "") with "".
    rewrite dup_str_success by exact Hheap. reflexivity.
Qed.

Lemma execute_null_and_empty_witness :
  applepye_execute minipy None (ready_host 8) =
    Returned (Some "") (mkHost true 1 0 false 7 fresh_py) /\
  exists h', applepye_execute minipy (Some "") (ready_host 8) = Returned (Some "") h'.
Proof.
  apply (execute_null_and_empty minipy (ready_host 8)).
  vm_compute. discriminate.
Defined.

Lemma minipy_run_assign st :
  _applepye_run minipy "x = 5" st = Normal tt (bind_global "x" (VInt 5) st).
Proof. reflexivity. Qed.

Lemma minipy_eval_x_plus_1 st z :
  globals st !! "x" = Some (VInt z) ->
  MiniPy.eval "x + 1" st = Normal (VInt (z + 1)) st.
Proof.
  intros Hx.
  change (MiniPy.eval "x + 1" st)
    with (at_line 1 "<module>"
            (bind_outcome (MiniPy.lookup_name "x" st)
               (fun x st => MiniPy.py_add x (VInt 1) st))).
  unfold MiniPy.lookup_name. rewrite Hx. reflexivity.
Qed.

(** Printing into a capture buffer appends the text and a newline. *)
Lemma py_print_captured v st n text :
  sys_stdout st = VStringIO n ->
  stringios st !! n = Some text ->
  py_print v st =
    Normal tt (set_stringios
                 (<[n := text +:+ (str_of_value v +:+ newline)]> (stringios st)) st).
Proof.
  intros Ho Ht. unfold py_print, stream_write. rewrite Ho, Ht. reflexivity.
Qed.

(** C6: state set by one call is seen by the next.  From any host with
    four bytes to allocate, [x = 5] returns the empty string and leaves
    [x] bound to 5 in the namespace, and [x + 1] on the host it left
    returns [6] and a newline. *)
Theorem state_persists_across_calls (h : host) :
  (4 <= heap_free h)%N ->
  exists h1 h2,
    applepye_execute minipy (Some "x = 5") h = Returned (Some "") h1 /\
    globals (py h1) !! "x" = Some (VInt 5) /\
    applepye_execute minipy (Some "x + 1") h1 =
      Returned (Some ("6" +:+ newline)) h2.
Proof.
  intros Hheap.
  (* first call *)
  destruct (run_state_buffer "x = 5" (py h)) as [Hb Ht].
  destruct (execute_captured minipy "x = 5" "x = 5" h
              (bind_global "x" (VInt 5) (run_state "x = 5" (py h)))
              (List.length (stringios (py h))) ""
              eq_refl eq_refl (minipy_run_assign _))
    as (h1 & E1 & Hheap1 & _ & G1).
  { rewrite globals_bind_global, lookup_insert_ne by done. exact Hb. }
  { exact Ht. }
  change (result_text minipy "") with "" in *.
  rewrite dup_str_success in E1, Hheap1 by (vm_compute strlen; lia).
  cbn [fst snd heap_free c_string] in E1, Hheap1. vm_compute strlen in Hheap1.
  assert (Hx : globals (py h1) !! "x" = Some (VInt 5)).
  { rewrite G1, globals_bind_global.
    rewrite !lookup_delete_ne, lookup_insert_ne, lookup_insert_eq by done.
    reflexivity. }
  (* second call *)
  set (rs := run_state "x + 1" (py h1)).
  assert (Hx2 : globals rs !! "x" = Some (VInt 5)).
  { unfold rs. rewrite run_state_globals, !lookup_insert_ne by done. exact Hx. }
  destruct (run_state_buffer "x + 1" (py h1)) as [Hb2 Ht2].
  destruct (run_state_streams "x + 1" (py h1)) as (Ho2 & _ & Hl2 & _).
  fold rs in Hb2, Ht2, Ho2, Hl2.
  set (n := List.length (stringios (py h1))) in *.
  pose proof (py_print_captured (VInt 6) rs n "" Ho2 Ht2) as Hp.
  assert (Hrun : _applepye_run minipy "x + 1" rs =
                 Normal tt (set_stringios
                   (<[n := "" +:+ (str_of_value (VInt 6) +:+ newline)]> (stringios rs)) rs)).
  { unfold _applepye_run. simpl py_eval.
    rewrite (minipy_eval_x_plus_1 rs 5 Hx2).
    change (5 + 1) with 6. cbn [at_line]. cbv beta iota.
    change (py_print_call minipy) with py_print.
    rewrite Hp. reflexivity. }
  destruct (execute_captured minipy "x + 1" "x + 1" h1 _ n
              ("" +:+ (str_of_value (VInt 6) +:+ newline))
              eq_refl eq_refl Hrun) as (h2 & E2 & _).
  { exact Hb2. }
  { simpl stringios. apply list_lookup_insert_eq.
    apply lookup_lt_Some in Ht2. exact Ht2. }
  exists h1, h2. split; [exact E1|]. split; [exact Hx|].
  rewrite E2.
  change (result_text minipy ("" +:+ (str_of_value (VInt 6) +:+ newline)))
    with ("6" +:+ newline).
  rewrite dup_str_success by (vm_compute strlen; lia).
  reflexivity.
Qed.

Lemma state_persists_across_calls_witness :
  exists h1 h2,
    applepye_execute minipy (Some "x = 5") (ready_host 64) = Returned (Some "") h1 /\
    globals (py h1) !! "x" = Some (VInt 5) /\
    applepye_execute minipy (Some "x + 1") h1 =
      Returned (Some ("6" +:+ newline)) h2.
Proof.
  apply (state_persists_across_calls (ready_host 64)).
  vm_compute. discriminate.
Defined.

(** ** The value of an expression *)

(** C4 (as stated, refuted): the expression [print(1) or 2] evaluates to
    2, and the call returns the line printed by the expression before the
    line of the value. *)
Lemma expression_output_counterexample :
  (exists st1,
     py_eval minipy "print(1) or 2" (run_state "print(1) or 2" fresh_py)
       = Normal (VInt 2) st1) /\
  output_of (applepye_execute minipy (Some "print(1) or 2") (ready_host 64))
    = Some (Some ("1" +:+ newline +:+ "2" +:+ newline)) /\
  output_of (applepye_execute minipy (Some "print(1) or 2") (ready_host 64))
    <> Some (Some (str_of_value (VInt 2) +:+ newline)).
Proof.
  split; [|split].
  - eexists. vm_compute. reflexivity.
  - vm_compute. reflexivity.
  - vm_compute. discriminate.
Qed.

(** C4 (amended): when the source evaluates to a value [v] other than
    [None], the call [print(v)] of line 12 writes the textual
    representation [repr] of [v] and a newline to [sys.stdout] (the name
    [print] still resolves to the builtin and [v] can be printed), and
    the evaluation has left the capture in place ([sys.stdout] and
    [_applepye_buf] are still the buffer), the call returns the text the
    evaluation itself wrote into the buffer, then [repr] and one newline,
    provided that text holds no NUL, is encodable and its copy can be
    allocated. *)
Theorem expression_value_output
  (I : Interp) (code src : string) (h : host) (v : value) (st1 : pystate)
  (n : nat) (text repr : string) :
  PyUnicode_FromString I (c_string code) = Some src ->
  PyDict_SetItemString_fails I (py h) = false ->
  py_eval I src (run_state src (py h)) = Normal v st1 ->
  v <> VNone ->
  sys_stdout st1 = VStringIO n ->
  py_print_call I v st1 = stream_write (sys_stdout st1) (repr +:+ newline) st1 ->
  globals st1 !! "_applepye_buf" = Some (VStringIO n) ->
  stringios st1 !! n = Some text ->
  PyUnicode_AsUTF8 I (text +:+ (repr +:+ newline))
    = Some (text +:+ (repr +:+ newline)) ->
  c_string (text +:+ (repr +:+ newline)) = text +:+ (repr +:+ newline) ->
  (strlen (text +:+ (repr +:+ newline)) + 1 <= heap_free h)%N ->
  exists h',
    applepye_execute I (Some code) h =
      Returned (Some (text +:+ (repr +:+ newline))) h'.
Proof.
  intros Hu Hs Hev Hv Ho Hpr Hb Ht Henc Hnul Hheap.
  set (out := text +:+ (repr +:+ newline)) in *.
  assert (Hrun : _applepye_run I src (run_state src (py h)) =
                 Normal tt (set_stringios (<[n := out]> (stringios st1)) st1)).
  { unfold _applepye_run. rewrite Hev, Hpr, Ho.
    unfold stream_write. rewrite Ht.
    destruct v; try reflexivity. contradiction. }
  destruct (execute_captured I code src h _ n out Hu Hs Hrun) as (h' & E & _).
  { exact Hb. }
  { simpl stringios. apply list_lookup_insert_eq.
    apply lookup_lt_Some in Ht. exact Ht. }
  exists h'. rewrite E. unfold result_text. rewrite Henc.
  rewrite dup_str_success by exact Hheap. simpl. rewrite Hnul. reflexivity.
Qed.

Lemma expression_value_output_witness :
  exists h',
    applepye_execute minipy (Some "print(1) or 2") (ready_host 64) =
      Returned (Some (("1" +:+ newline) +:+ ("2" +:+ newline))) h'.
Proof.
  eapply (expression_value_output minipy "print(1) or 2" "print(1) or 2"
            (ready_host 64) (VInt 2) _ 0 ("1" +:+ newline) "2").
  - reflexivity.
  - reflexivity.
  - vm_compute. reflexivity.
  - discriminate.
  - reflexivity.
  - reflexivity.
  - vm_compute. reflexivity.
  - vm_compute. reflexivity.
  - reflexivity.
  - vm_compute. reflexivity.
  - vm_compute. discriminate.
Defined.

(** ** Faults of the script *)








(** ** What a call leaves in the namespace *)

(** C10 (as stated, refuted): after the call on [del _applepye_run] the
    helper name [_applepye_run] is not bound; and a source that is not
    UTF-8 leaves a fresh namespace without any helper name. *)
Lemma helper_names_counterexample :
  (exists h',
     applepye_execute minipy (Some "del _applepye_run") (ready_host 64)
       = Returned (Some "") h' /\
     globals (py h') !! "_applepye_run" = None) /\
  (exists out h',
     applepye_execute minipy (Some bad_utf8) (ready_host 64) = Returned out h' /\
     globals (py h') !! "sys" = None).
Proof.
  split.
  - eexists. split; vm_compute; reflexivity.
  - eexists _, _. split; vm_compute; reflexivity.
Qed.

Lemma lookup_after_cleanup (g : gmap string value) (x : string) :
  x <> "result" -> x <> "__APPLEPYE_CODE__" ->
  delete "result" (delete "__APPLEPYE_CODE__" g) !! x = g !! x.
Proof. intros H1 H2. rewrite !lookup_delete_ne by done. reflexivity. Qed.

Lemma helper_name_not_temporary x :
  In x helper_names -> x <> "result" /\ x <> "__APPLEPYE_CODE__".
Proof.
  simpl. intros [<-|[<-|[<-|[<-|[<-|[<-|[]]]]]]]; split; discriminate.
Qed.

(** C10 (amended): in a call that gets as far as the wrapper, the six
    helper names are bound when the script starts; when the call returns,
    [result] and [__APPLEPYE_CODE__] are not bound (whatever the script
    did with those names), and every helper name that the script left
    bound is still bound. *)
Theorem namespace_after_call
  (I : Interp) (code src : string) (h h' : host) (out : option string) :
  PyUnicode_FromString I (c_string code) = Some src ->
  PyDict_SetItemString_fails I (py h) = false ->
  applepye_execute I (Some code) h = Returned out h' ->
  (forall x, In x helper_names -> is_Some (globals (run_state src (py h)) !! x)) /\
  globals (py h') !! "result" = None /\
  globals (py h') !! "__APPLEPYE_CODE__" = None /\
  exists st_run,
    final_state (_applepye_run I src (run_state src (py h))) = Some st_run /\
    forall x, In x helper_names ->
              is_Some (globals st_run !! x) -> is_Some (globals (py h') !! x).
Proof.
  intros Hu Hs Hret.
  split; [intros x; apply run_state_helpers_bound|].
  destruct (execute_returned_inv I code src h h' out Hu Hs Hret)
    as (st_run & st_fin & Hrun & HG & _ & ->).
  simpl.
  split; [apply lookup_delete_eq|].
  split; [rewrite lookup_delete_ne by done; apply lookup_delete_eq|].
  exists st_run. split; [exact Hrun|].
  intros x Hx Hb. destruct (helper_name_not_temporary x Hx) as [N1 N2].
  rewrite lookup_after_cleanup by done.
  destruct HG as [->|[v ->]]; [exact Hb|].
  rewrite lookup_insert_ne by done. exact Hb.
Qed.

Lemma namespace_after_call_witness :
  exists h',
    applepye_execute minipy (Some "result = 5") (ready_host 64)
      = Returned (Some "") h' /\
    globals (py h') !! "result" = None /\
    globals (py h') !! "__APPLEPYE_CODE__" = None.
Proof.
  assert (E : exists h', applepye_execute minipy (Some "result = 5") (ready_host 64)
                         = Returned (Some "") h')
    by (eexists; vm_compute; reflexivity).
  destruct E as [h' E]. exists h'. split; [exact E|].
  destruct (namespace_after_call minipy "result = 5" "result = 5"
              (ready_host 64) h' (Some "") eq_refl eq_refl E)
    as (_ & R1 & R2 & _).
  split; [exact R1 | exact R2].
Defined.

(** ** Restoring the streams *)

(** The closing lines on a namespace whose helper names are as the
    prologue bound them: the state they leave. *)
Lemma wrapper_epilogue_clean st n text old_out old_err :
  globals st !! "_applepye_buf" = Some (VStringIO n) ->
  stringios st !! n = Some text ->
  globals st !! "_applepye_old_stdout" = Some old_out ->
  globals st !! "_applepye_old_stderr" = Some old_err ->
  globals st !! "sys" = Some (VModule "sys") ->
  wrapper_epilogue st =
    Normal tt (set_sys_stderr old_err
                 (set_sys_stdout old_out (bind_global "result" (VStr text) st))).
Proof.
  intros Hb Ht Ho He Hsys.
  set (st_r := bind_global "result" (VStr text) st).
  assert (Ho' : globals st_r !! "_applepye_old_stdout" = Some old_out)
    by (unfold st_r; rewrite globals_bind_global, lookup_insert_ne by done; exact Ho).
  assert (He' : globals st_r !! "_applepye_old_stderr" = Some old_err)
    by (unfold st_r; rewrite globals_bind_global, lookup_insert_ne by done; exact He).
  assert (Hsys' : globals st_r !! "sys" = Some (VModule "sys"))
    by (unfold st_r; rewrite globals_bind_global, lookup_insert_ne by done; exact Hsys).
  unfold wrapper_epilogue, lookup_global, bind_outcome, py_getvalue.
  rewrite Hb. cbv beta iota. rewrite Ht. cbn [at_line]. cbv beta iota.
  fold st_r. rewrite Ho', Hsys'.
  cbn [py_setattr_stream String.eqb Ascii.eqb Bool.eqb at_line]. cbv beta iota.
  rewrite globals_set_sys_stdout, He'. cbv beta iota.
  rewrite globals_set_sys_stdout, Hsys'.
  reflexivity.
Qed.

(** When the script comes back to the wrapper and the names the closing
    lines read are as the prologue bound them, both streams get their
    former values back. *)
Lemma wrapper_epilogue_restores st n text old_out old_err :
  globals st !! "_applepye_buf" = Some (VStringIO n) ->
  stringios st !! n = Some text ->
  globals st !! "_applepye_old_stdout" = Some old_out ->
  globals st !! "_applepye_old_stderr" = Some old_err ->
  globals st !! "sys" = Some (VModule "sys") ->
  exists st',
    wrapper_epilogue st = Normal tt st' /\
    sys_stdout st' = old_out /\ sys_stderr st' = old_err.
Proof.
  intros Hb Ht Ho He Hsys.
  eexists. split; [apply (wrapper_epilogue_clean st n text old_out old_err); assumption|].
  split; reflexivity.
Qed.

(** C2 (the code at the failing input): the statement
    [raise KeyboardInterrupt] is not caught by [except Exception], the
    closing lines of the wrapper are skipped, and the call returns with
    [sys.stdout] and [sys.stderr] still bound to the capture buffer: a
    later [print] does not reach the real standard output. *)
Theorem streams_not_restored_after_uncaught_fault :
  exists h' st'',
    applepye_execute minipy (Some "raise KeyboardInterrupt") (ready_host 1024)
      = Returned (Some "") h' /\
    sys_stdout (py (ready_host 1024)) = VFile Fd_stdout /\
    sys_stderr (py (ready_host 1024)) = VFile Fd_stderr /\
    sys_stdout (py h') = VStringIO 0 /\
    sys_stderr (py h') = VStringIO 0 /\
    py_print (VStr "hello") (py h') = Normal tt st'' /\
    real_stdout st'' = "".
Proof.
  eexists _, _.
  split; [vm_compute; reflexivity|].
  split; [reflexivity|]. split; [reflexivity|].
  split; [vm_compute; reflexivity|]. split; [vm_compute; reflexivity|].
  split; vm_compute; reflexivity.
Qed.

(** * Further properties of the bridge *)

(** ** [_dup_str] *)

Lemma c_string_idem (s : string) : c_string (c_string s) = c_string s.
Proof.
  induction s as [|c r IH]; simpl; [reflexivity|].
  destruct (Ascii.eqb c zero) eqn:E; simpl; [reflexivity|].
  rewrite E, IH. reflexivity.
Qed.

Lemma c_string_prefix (s : string) : exists rest, s = c_string s +:+ rest.
Proof.
  induction s as [|c r [rest IH]]; simpl.
  - exists "". reflexivity.
  - destruct (Ascii.eqb c zero).
    + exists (String c r). reflexivity.
    + exists rest. change (String c r = String c (c_string r +:+ rest)).
      f_equal. exact IH.
Qed.

(** The two ways [_dup_str] ends. *)
Lemma dup_str_cases (s : option string) (h : host) :
  match _dup_str s h with
  | (Some r, h1) =>
      r = c_string (default "" s) /\
      c_string r = r /\
      (exists rest, default "" s = r +:+ rest) /\
      (N.of_nat (String.length r) + 1 <= heap_free h)%N /\
      h1 = mkHost (py_initialized h) (init_count h) (fini_count h) (gil_held h)
                  (heap_free h - (N.of_nat (String.length r) + 1))%N (py h)
  | (None, h1) =>
      h1 = h /\ (heap_free h < strlen (default "" s) + 1)%N
  end.
Proof.
  unfold _dup_str, malloc.
  replace (match s with Some s0 => s0 | None => "" end) with (default "" s)
    by (destruct s; reflexivity).
  destruct (strlen (default "" s) + 1 <=? heap_free h)%N eqn:E.
  - apply N.leb_le in E. unfold strlen in *.
    split; [reflexivity|]. split; [apply c_string_idem|].
    split; [apply c_string_prefix|]. split; [exact E|]. reflexivity.
  - apply N.leb_gt in E. split; [reflexivity|exact E].
Qed.

(** X1: [_dup_str] either fails and leaves the host as it was (exactly
    when the allocator lacks the bytes of the copy and its terminator), or
    returns the argument up to its first NUL (the empty string for a NULL
    argument): a string without NUL that is a prefix of the argument, at
    the cost of its length plus one byte; lock, lifecycle flags and
    interpreter state are not touched. *)
Theorem dup_str_result (s : option string) (h : host) :
  match _dup_str s h with
  | (Some r, h1) =>
      r = c_string (default "" s) /\
      c_string r = r /\
      (exists rest, default "" s = r +:+ rest) /\
      (N.of_nat (String.length r) + 1 <= heap_free h)%N /\
      h1 = mkHost (py_initialized h) (init_count h) (fini_count h) (gil_held h)
                  (heap_free h - (N.of_nat (String.length r) + 1))%N (py h)
  | (None, h1) =>
      h1 = h /\ (heap_free h < strlen (default "" s) + 1)%N
  end.
Proof. apply dup_str_cases. Qed.

(** ** What a returning call leaves, continued *)

Lemma cleanup_ignores_result (g : gmap string value) (v : value) :
  delete "result" (delete "__APPLEPYE_CODE__" (<["result" := v]> g))
  = delete "result" (delete "__APPLEPYE_CODE__" g).
Proof.
  rewrite delete_insert_ne by done.
  rewrite (delete_insert_eq (delete "__APPLEPYE_CODE__" g) "result" v).
  reflexivity.
Qed.

(** X2: whatever a returning call of [applepye_execute] did, the lock of
    the calling thread and the lifecycle flags are those found at entry,
    and the only bytes taken from the allocator are those of the returned
    string, which holds no NUL; a NULL return took nothing.  This covers
    all return paths: NULL source, failed construction, failed binding,
    and the wrapper whatever the script did. *)
Theorem execute_frame (I : Interp) (code_c : option string) (h : host) :
  match applepye_execute I code_c h with
  | Returned out h' =>
      gil_held h' = gil_held h /\
      py_initialized h' = py_initialized h /\
      init_count h' = init_count h /\
      fini_count h' = fini_count h /\
      match out with
      | Some s => c_string s = s /\
                  heap_free h' = (heap_free h - (N.of_nat (String.length s) + 1))%N
      | None => heap_free h' = heap_free h
      end
  | ProcessExit _ | Hangs => True
  end.
Proof.
  assert (Hdup : forall s b,
    let r := _dup_str (Some s) (set_gil b h) in
    py_initialized (snd r) = py_initialized h /\
    init_count (snd r) = init_count h /\
    fini_count (snd r) = fini_count h /\
    match fst r with
    | Some t => c_string t = t /\
                heap_free (snd r) = (heap_free h - (N.of_nat (String.length t) + 1))%N
    | None => heap_free (snd r) = heap_free h
    end).
  { intros s b r. subst r.
    pose proof (dup_str_cases (Some s) (set_gil b h)) as D.
    destruct (_dup_str (Some s) (set_gil b h)) as [[t|] h1]; simpl.
    - destruct D as (_ & Hc & _ & _ & ->). simpl.
      do 3 (split; [reflexivity|]). split; [exact Hc|reflexivity].
    - destruct D as [-> _]. simpl. do 3 (split; [reflexivity|]). reflexivity. }
  destruct code_c as [code|].
  - destruct (applepye_execute I (Some code) h) as [out h'| |] eqn:E; [|exact Logic.I..].
    destruct (PyUnicode_FromString I (c_string code)) as [src|] eqn:Hu;
      [destruct (PyDict_SetItemString_fails I (py h)) eqn:Hs|].
    + unfold applepye_execute, PyGILState_Ensure, PyGILState_Release in E.
      simpl in E. rewrite Hu, Hs in E. unfold returning in E.
      injection E as <- <-.
      destruct (Hdup msg_set_failed (gil_held h)) as (A & B & C & D).
      destruct (dup_str_frame (Some msg_set_failed) (set_gil (gil_held h) (set_gil true h)))
        as (_ & _ & _ & G & _).
      change (set_gil (gil_held h) (set_gil true h)) with (set_gil (gil_held h) h) in *.
      split; [exact G|]. split; [exact A|]. split; [exact B|]. split; [exact C|]. exact D.
    + destruct (execute_returned_inv I code src h h' out Hu Hs E)
        as (st_run & st_fin & _ & _ & -> & ->).
      destruct (Hdup (fetched_text I st_fin) true) as (A & B & C & D).
      split; [reflexivity|]. split; [exact A|]. split; [exact B|]. split; [exact C|]. exact D.
    + unfold applepye_execute, PyGILState_Ensure, PyGILState_Release in E.
      simpl in E. rewrite Hu in E. unfold returning in E.
      injection E as <- <-.
      destruct (Hdup msg_create_failed (gil_held h)) as (A & B & C & D).
      destruct (dup_str_frame (Some msg_create_failed) (set_gil (gil_held h) (set_gil true h)))
        as (_ & _ & _ & G & _).
      change (set_gil (gil_held h) (set_gil true h)) with (set_gil (gil_held h) h) in *.
      split; [exact G|]. split; [exact A|]. split; [exact B|]. split; [exact C|]. exact D.
  - unfold applepye_execute, returning.
    pose proof (dup_str_cases (Some "") h) as D.
    destruct (_dup_str (Some "") h) as [[t|] h1]; simpl.
    + destruct D as (_ & Hc & _ & _ & ->). simpl.
      do 4 (split; [reflexivity|]). split; [exact Hc|reflexivity].
    + destruct D as [-> _]. do 4 (split; [reflexivity|]). reflexivity.
Qed.

(** The namespace on return, from the inversion. *)
Lemma returned_namespace
  (I : Interp) (code src : string) (h h' : host) (out : option string) :
  PyUnicode_FromString I (c_string code) = Some src ->
  PyDict_SetItemString_fails I (py h) = false ->
  applepye_execute I (Some code) h = Returned out h' ->
  exists st_run,
    final_state (_applepye_run I src (run_state src (py h))) = Some st_run /\
    globals (py h') =
      delete "result" (delete "__APPLEPYE_CODE__" (globals st_run)).
Proof.
  intros Hu Hs E.
  destruct (execute_returned_inv I code src h h' out Hu Hs E)
    as (st_run & st_fin & Hrun & HG & _ & ->).
  exists st_run. split; [exact Hrun|]. simpl.
  destruct HG as [->|[v ->]]; [reflexivity|apply cleanup_ignores_result].
Qed.

(** X3: the namespace a returning call leaves is exactly the namespace
    the script left, without the two temporary names [result] and
    [__APPLEPYE_CODE__]: apart from those two, the closing lines of the
    wrapper and the C code bind, rebind and unbind nothing. *)
Theorem namespace_is_what_script_left
  (I : Interp) (code src : string) (h h' : host) (out : option string) :
  PyUnicode_FromString I (c_string code) = Some src ->
  PyDict_SetItemString_fails I (py h) = false ->
  applepye_execute I (Some code) h = Returned out h' ->
  exists st_run,
    final_state (_applepye_run I src (run_state src (py h))) = Some st_run /\
    globals (py h') =
      delete "result" (delete "__APPLEPYE_CODE__" (globals st_run)).
Proof. apply returned_namespace. Qed.

Lemma namespace_is_what_script_left_witness :
  exists h' st_run,
    applepye_execute minipy (Some "x = 5") (ready_host 64) = Returned (Some "") h' /\
    final_state (_applepye_run minipy "x = 5" (run_state "x = 5" fresh_py))
      = Some st_run /\
    globals (py h') =
      delete "result" (delete "__APPLEPYE_CODE__" (globals st_run)).
Proof.
  assert (E : exists h', applepye_execute minipy (Some "x = 5") (ready_host 64)
                         = Returned (Some "") h')
    by (eexists; vm_compute; reflexivity).
  destruct E as [h' E].
  destruct (namespace_is_what_script_left minipy "x = 5" "x = 5"
              (ready_host 64) h' (Some "") eq_refl eq_refl E) as (st_run & R1 & R2).
  exists h', st_run. split; [exact E|]. split; [exact R1 | exact R2].
Defined.

(** ** Restoring and capturing *)

(** X5: when the script comes back to the wrapper and has left the four
    names read by the closing lines as the prologue bound them, the call
    returns with [sys.stdout] and [sys.stderr] bound to the objects they
    were bound to before the call; the closing lines and the C code write
    nothing to the process streams and leave every [io.StringIO] as the
    script left it. *)
Theorem streams_restored_after_clean_run
  (I : Interp) (code src : string) (h : host) (st1 : pystate)
  (n : nat) (text : string) :
  PyUnicode_FromString I (c_string code) = Some src ->
  PyDict_SetItemString_fails I (py h) = false ->
  _applepye_run I src (run_state src (py h)) = Normal tt st1 ->
  globals st1 !! "_applepye_buf" = Some (VStringIO n) ->
  stringios st1 !! n = Some text ->
  globals st1 !! "_applepye_old_stdout" = Some (sys_stdout (py h)) ->
  globals st1 !! "_applepye_old_stderr" = Some (sys_stderr (py h)) ->
  globals st1 !! "sys" = Some (VModule "sys") ->
  exists out h',
    applepye_execute I (Some code) h = Returned out h' /\
    sys_stdout (py h') = sys_stdout (py h) /\
    sys_stderr (py h') = sys_stderr (py h) /\
    real_stdout (py h') = real_stdout st1 /\
    real_stderr (py h') = real_stderr st1 /\
    stringios (py h') = stringios st1.
Proof.
  intros Hu Hs Hrun Hb Ht Ho He Hsys.
  unfold applepye_execute, PyGILState_Ensure. simpl.
  rewrite Hu, Hs.
  unfold PyRun_SimpleString, wrapper, bind_outcome.
  change (wrapper_prologue (bind_global "__APPLEPYE_CODE__" (VStr src) (py h)))
    with (run_state src (py h)).
  rewrite wrapper_call_run, Hrun. cbn [at_line].
  rewrite (wrapper_epilogue_clean st1 n text _ _ Hb Ht Ho He Hsys).
  rewrite fetch_shape.
  eexists _, _. split; [reflexivity|].
  repeat (split; [reflexivity|]). reflexivity.
Qed.

Lemma streams_restored_after_clean_run_witness :
  exists out h',
    applepye_execute minipy (Some "print(1) or 2") (ready_host 64) = Returned out h' /\
    sys_stdout (py h') = VFile Fd_stdout /\
    sys_stderr (py h') = VFile Fd_stderr.
Proof.
  destruct (streams_restored_after_clean_run minipy "print(1) or 2" "print(1) or 2"
              (ready_host 64)
              (set_stringios ["1" +:+ newline +:+ "2" +:+ newline]
                 (run_state "print(1) or 2" fresh_py))
              0 ("1" +:+ newline +:+ "2" +:+ newline))
    as (out & h' & E & O & R & _).
  - reflexivity.
  - reflexivity.
  - vm_compute. reflexivity.
  - vm_compute. reflexivity.
  - reflexivity.
  - vm_compute. reflexivity.
  - vm_compute. reflexivity.
  - vm_compute. reflexivity.
  - exists out, h'. split; [exact E|]. split; [exact O | exact R].
Defined.




(** ** Edge behaviour of the fetch *)

(** X7: when the script's run leaves [_applepye_run] with a fault other
    than [SystemExit], the closing lines are skipped and the call returns
    what the namespace holds under [result] at that point: the string the
    script itself bound to [result] if there is one, the empty string
    otherwise; the captured text is not returned, and both streams stay
    as the script left them. *)
Theorem aborted_wrapper_returns_script_result
  (I : Interp) (code src : string) (h : host) (e : exception) (st1 : pystate) :
  PyUnicode_FromString I (c_string code) = Some src ->
  PyDict_SetItemString_fails I (py h) = false ->
  _applepye_run I src (run_state src (py h)) = Raised e st1 ->
  exc_cls e <> SystemExit ->
  exists h',
    applepye_execute I (Some code) h =
      Returned (fst (_dup_str (Some (fetched_text I st1)) h)) h' /\
    sys_stdout (py h') = sys_stdout st1 /\
    sys_stderr (py h') = sys_stderr st1.
Proof.
  intros Hu Hs Hrun Hne.
  unfold applepye_execute, PyGILState_Ensure. simpl.
  rewrite Hu, Hs.
  unfold PyRun_SimpleString, wrapper, bind_outcome.
  change (wrapper_prologue (bind_global "__APPLEPYE_CODE__" (VStr src) (py h)))
    with (run_state src (py h)).
  rewrite wrapper_call_run, Hrun. cbn [at_line].
  set (e' := add_frame 22 "<module>" e).
  change (exc_cls e') with (exc_cls e).
  destruct (PyErr_Print_frame I e' st1) as (G & O & R).
  assert (F : fetched_text I (PyErr_Print I e' st1) = fetched_text I st1)
    by (unfold fetched_text; rewrite G; reflexivity).
  destruct (_dup_str_set_gil (Some (fetched_text I st1)) true h) as (D1 & _).
  destruct (exc_cls e); try done; rewrite fetch_shape, F, D1;
    (eexists; split; [reflexivity|]); simpl; auto.
Qed.

Lemma aborted_wrapper_returns_script_result_witness :
  exists h',
    applepye_execute minipy (Some src_result_then_interrupt) (ready_host 1024)
      = Returned (Some src_result_then_interrupt) h' /\
    sys_stdout (py h') = VStringIO 0.
Proof.
  assert (Hrun : exists e,
             _applepye_run minipy src_result_then_interrupt
               (run_state src_result_then_interrupt (py (ready_host 1024)))
             = Raised e (bind_global "result" (VStr src_result_then_interrupt)
                           (run_state src_result_then_interrupt fresh_py)) /\
             exc_cls e <> SystemExit)
    by (eexists; split; [vm_compute; reflexivity | simpl; discriminate]).
  destruct Hrun as (e & Hrun & Hne).
  destruct (aborted_wrapper_returns_script_result minipy
              src_result_then_interrupt src_result_then_interrupt (ready_host 1024)
              e _ eq_refl eq_refl Hrun Hne)
    as (h' & E & O & _).
  exists h'. split; [|exact O].
  rewrite E. vm_compute. reflexivity.
Defined.

(** X8: what a run that comes back with the capture buffer bound returns
    is the buffer's text as [PyUnicode_AsUTF8] encodes it, cut at its
    first NUL; when the text cannot be encoded the call returns the empty
    string, not NULL.  The copy needs the length of that string plus one
    byte. *)
Theorem captured_text_returned
  (I : Interp) (code src : string) (h : host) (st1 : pystate)
  (n : nat) (text : string) :
  PyUnicode_FromString I (c_string code) = Some src ->
  PyDict_SetItemString_fails I (py h) = false ->
  _applepye_run I src (run_state src (py h)) = Normal tt st1 ->
  globals st1 !! "_applepye_buf" = Some (VStringIO n) ->
  stringios st1 !! n = Some text ->
  (strlen (default "" (PyUnicode_AsUTF8 I text)) + 1 <= heap_free h)%N ->
  exists h',
    applepye_execute I (Some code) h =
      Returned (Some (c_string (default "" (PyUnicode_AsUTF8 I text)))) h'.
Proof.
  intros Hu Hs Hrun Hb Ht Hheap.
  destruct (execute_captured I code src h st1 n text Hu Hs Hrun Hb Ht)
    as (h' & E & _).
  exists h'. rewrite E.
  replace (result_text I text) with (default "" (PyUnicode_AsUTF8 I text))
    by (unfold result_text; destruct (PyUnicode_AsUTF8 I text); reflexivity).
  rewrite dup_str_success by exact Hheap. reflexivity.
Qed.

Lemma captured_text_returned_witness :
  exists h',
    applepye_execute minipy_noencode (Some "print(7)") (ready_host 64)
      = Returned (Some "") h'.
Proof.
  eapply (captured_text_returned minipy_noencode "print(7)" "print(7)"
            (ready_host 64) _ 0 ("7" +:+ newline)).
  - reflexivity.
  - reflexivity.
  - vm_compute. reflexivity.
  - vm_compute. reflexivity.
  - vm_compute. reflexivity.
  - vm_compute. discriminate.
Defined.

(** X9: when the script rebinds the helper name [sys] to an integer, the
    first closing assignment faults after [result] has been taken: the
    call still returns the captured text, but neither stream is restored
    (both stay as the script left them). *)
Theorem clobbered_sys_skips_restore
  (I : Interp) (code src : string) (h : host) (st1 : pystate)
  (n : nat) (text : string) (old_out : value) (z : Z) :
  PyUnicode_FromString I (c_string code) = Some src ->
  PyDict_SetItemString_fails I (py h) = false ->
  _applepye_run I src (run_state src (py h)) = Normal tt st1 ->
  globals st1 !! "_applepye_buf" = Some (VStringIO n) ->
  stringios st1 !! n = Some text ->
  globals st1 !! "_applepye_old_stdout" = Some old_out ->
  globals st1 !! "sys" = Some (VInt z) ->
  exists h',
    applepye_execute I (Some code) h =
      Returned (fst (_dup_str (Some (result_text I text)) h)) h' /\
    sys_stdout (py h') = sys_stdout st1 /\
    sys_stderr (py h') = sys_stderr st1.
Proof.
  intros Hu Hs Hrun Hb Ht Ho Hsys.
  unfold applepye_execute, PyGILState_Ensure. simpl.
  rewrite Hu, Hs.
  unfold PyRun_SimpleString, wrapper, bind_outcome.
  change (wrapper_prologue (bind_global "__APPLEPYE_CODE__" (VStr src) (py h)))
    with (run_state src (py h)).
  rewrite wrapper_call_run, Hrun. cbn [at_line].
  set (st_r := bind_global "result" (VStr text) st1).
  set (e := add_frame 24 "<module>" (Fault AttributeError "stdout")).
  assert (Hep : wrapper_epilogue st1 = Raised e st_r).
  { unfold wrapper_epilogue, lookup_global, bind_outcome, py_getvalue.
    rewrite Hb. cbv beta iota. rewrite Ht. cbn [at_line]. cbv beta iota.
    fold st_r.
    assert (Ho' : globals st_r !! "_applepye_old_stdout" = Some old_out)
      by (unfold st_r; rewrite globals_bind_global, lookup_insert_ne by done; exact Ho).
    assert (Hsys' : globals st_r !! "sys" = Some (VInt z))
      by (unfold st_r; rewrite globals_bind_global, lookup_insert_ne by done; exact Hsys).
    rewrite Ho', Hsys'. reflexivity. }
  rewrite Hep. cbv beta iota. change (exc_cls e) with AttributeError.
  cbv beta iota.
  destruct (PyErr_Print_frame I e st_r) as (G & O & R).
  rewrite fetch_shape.
  assert (F : fetched_text I (PyErr_Print I e st_r) = result_text I text).
  { unfold fetched_text. rewrite G. unfold st_r.
    rewrite globals_bind_global, lookup_insert_eq. reflexivity. }
  destruct (_dup_str_set_gil (Some (result_text I text)) true h) as (D1 & _).
  rewrite F, D1. eexists. split; [reflexivity|]. simpl. auto.
Qed.

Lemma clobbered_sys_skips_restore_witness :
  exists h',
    applepye_execute minipy (Some "sys = 5") (ready_host 64) = Returned (Some "") h' /\
    sys_stdout (py h') = VStringIO 0 /\
    sys_stderr (py h') = VStringIO 0.
Proof.
  destruct (clobbered_sys_skips_restore minipy "sys = 5" "sys = 5" (ready_host 64)
              (bind_global "sys" (VInt 5) (run_state "sys = 5" fresh_py))
              0 "" (VFile Fd_stdout) 5)
    as (h' & E & O & R).
  - reflexivity.
  - reflexivity.
  - vm_compute. reflexivity.
  - vm_compute. reflexivity.
  - reflexivity.
  - vm_compute. reflexivity.
  - vm_compute. reflexivity.
  - exists h'. split; [exact E|]. split; [exact O | exact R].
Defined.

(** ** The start of a call *)

(** The prologue binds the source and the six helper names, nothing
    else. *)
Lemma run_state_other_names (src : string) (st : pystate) (x : string) :
  ~ In x (helper_names ++ temporary_names) ->
  globals (run_state src st) !! x = globals st !! x.
Proof.
  intros Hout. simpl in Hout. rewrite run_state_globals.
  rewrite !lookup_insert_ne; [reflexivity|..];
    intros <-; apply Hout; tauto.
Qed.

(** X10: every call starts its capture afresh.  When the script starts,
    [sys.stdout] and [sys.stderr] are one and the same new [io.StringIO],
    which is empty (nothing captured by an earlier call is in it) and
    comes after all the existing ones, whose contents are kept; nothing
    has been written to the process streams; the source is bound under
    [__APPLEPYE_CODE__]; and any name [x] other than the six helper names
    and the temporary ones is bound as it was before the call. *)
Theorem capture_starts_empty (src : string) (st : pystate) (x : string) :
  captured (run_state src st) = Some "" /\
  sys_stdout (run_state src st) = VStringIO (List.length (stringios st)) /\
  sys_stderr (run_state src st) = sys_stdout (run_state src st) /\
  stringios (run_state src st) = (stringios st ++ [""])%list /\
  real_stdout (run_state src st) = real_stdout st /\
  real_stderr (run_state src st) = real_stderr st /\
  globals (run_state src st) !! "__APPLEPYE_CODE__" = Some (VStr src) /\
  (In x (helper_names ++ temporary_names) \/
   globals (run_state src st) !! x = globals st !! x).
Proof.
  destruct (run_state_buffer src st) as [Hb Ht].
  split; [unfold captured; rewrite Hb; exact Ht|].
  do 5 (split; [reflexivity|]).
  rewrite run_state_globals.
  split; [rewrite !lookup_insert_ne by done; apply lookup_insert_eq|].
  destruct (in_dec string_dec x (helper_names ++ temporary_names)) as [Hin|Hout];
    [left; exact Hin|right].
  rewrite <- run_state_globals. apply run_state_other_names. exact Hout.
Qed.

(** X12: bindings carry over from call to call, on every interpreter.
    For a call that returned through the wrapper and any name [x] other
    than the six helper names and the two temporary ones, the binding of
    [x] that the next call's script finds when it starts (whatever its
    source [next]) is the one this call's script left, bound or not. *)
Theorem bindings_carry_over
  (I : Interp) (code src next : string) (h h' : host) (out : option string)
  (x : string) :
  PyUnicode_FromString I (c_string code) = Some src ->
  PyDict_SetItemString_fails I (py h) = false ->
  applepye_execute I (Some code) h = Returned out h' ->
  exists st_run,
    final_state (_applepye_run I src (run_state src (py h))) = Some st_run /\
    (In x (helper_names ++ temporary_names) \/
     globals (run_state next (py h')) !! x = globals st_run !! x).
Proof.
  intros Hu Hs E.
  destruct (returned_namespace I code src h h' out Hu Hs E)
    as (st_run & Hrun & HG).
  exists st_run. split; [exact Hrun|].
  destruct (in_dec string_dec x (helper_names ++ temporary_names)) as [Hin|Hout];
    [left; exact Hin|right].
  rewrite (run_state_other_names next (py h') x Hout), HG. apply lookup_after_cleanup; intros ->; apply Hout; simpl; tauto.
Qed.

Lemma bindings_carry_over_witness :
  exists h',
    applepye_execute minipy (Some "x = 5") (ready_host 64) = Returned (Some "") h' /\
    globals (run_state "x + 1" (py h')) !! "x" = Some (VInt 5).
Proof.
  assert (E : exists h', applepye_execute minipy (Some "x = 5") (ready_host 64)
                         = Returned (Some "") h')
    by (eexists; vm_compute; reflexivity).
  destruct E as [h' E]. exists h'. split; [exact E|].
  destruct (bindings_carry_over minipy "x = 5" "x = 5" "x + 1" (ready_host 64) h'
              (Some "") "x" eq_refl eq_refl E) as (st_run & Hrun & [Hin|Hx]).
  - exfalso. simpl in Hin.
    repeat (destruct Hin as [Hin|Hin]; [discriminate Hin|]). exact Hin.
  - rewrite Hx. vm_compute in Hrun. injection Hrun as <-.
    vm_compute. reflexivity.
Defined.

(** ** The fallback from evaluation to execution *)






(** ** The error indicator after a call *)



(** X14: a call whose script comes back to the wrapper with the capture
    buffer and [__APPLEPYE_CODE__] still bound, and whose captured text
    can be encoded, leaves no exception pending: the thread can call
    [applepye_execute] again. *)
Theorem clean_call_leaves_indicator_clear
  (I : Interp) (code src : string) (h : host) (st1 : pystate)
  (n : nat) (text t : string) (c : value) :
  PyUnicode_FromString I (c_string code) = Some src ->
  PyDict_SetItemString_fails I (py h) = false ->
  _applepye_run I src (run_state src (py h)) = Normal tt st1 ->
  globals st1 !! "_applepye_buf" = Some (VStringIO n) ->
  stringios st1 !! n = Some text ->
  globals st1 !! "__APPLEPYE_CODE__" = Some c ->
  PyUnicode_AsUTF8 I text = Some t ->
  applepye_execute_thread I (Some code) false h
    = Completed (applepye_execute I (Some code) h) false.
Proof.
  intros Hu Hs Hrun Hb Ht Hc Henc.
  unfold applepye_execute_thread. f_equal.
  unfold pending_after. rewrite Hu, Hs.
  unfold PyRun_SimpleString, wrapper, bind_outcome.
  change (wrapper_prologue (bind_global "__APPLEPYE_CODE__" (VStr src) (py h)))
    with (run_state src (py h)).
  rewrite wrapper_call_run, Hrun. cbn [at_line].
  pose proof (wrapper_epilogue_result st1 n text Hb Ht) as He.
  assert (P : forall st', globals st' = <["result" := VStr text]> (globals st1) ->
                          pending_after_cleanup I st' = false).
  { intros st' G. unfold pending_after_cleanup.
    rewrite G, lookup_insert_eq, Henc, lookup_insert_ne, Hc by done.
    reflexivity. }
  destruct (wrapper_epilogue st1) as [[] st'|e st'|]; simpl in He; [| |done].
  - apply P, He.
  - destruct He as [Hne He].
    destruct (PyErr_Print_frame I e st') as (G & _ & _).
    destruct (exc_cls e); try done; apply P; rewrite G; exact He.
Qed.

Lemma clean_call_leaves_indicator_clear_witness :
  applepye_execute_thread minipy (Some "x = 5") false (ready_host 64)
    = Completed (applepye_execute minipy (Some "x = 5") (ready_host 64)) false.
Proof.
  apply (clean_call_leaves_indicator_clear minipy "x = 5" "x = 5" (ready_host 64)
           (bind_global "x" (VInt 5) (run_state "x = 5" fresh_py)) 0 "" ""
           (VStr "x = 5")).
  - reflexivity.
  - reflexivity.
  - vm_compute. reflexivity.
  - vm_compute. reflexivity.
  - reflexivity.
  - vm_compute. reflexivity.
  - reflexivity.
Defined.
